(** * NYC taxi tip-regression notebook (PySpark 2.0): a shallow embedding

    The notebook [pySpark+2.0+modeling+MLADS.ipynb] is a straight-line script
    over Spark dataframes.  Its own logic is made of

    - two SQL filters (training and validation cleaning),
    - one SQL [CASE] expression that bins [pickup_hour] into traffic periods,
    - the order in which library stages are fitted and applied
      ([StringIndexer], [OneHotEncoder], [RFormula], [CrossValidator]).

    Dataframes are lists of rows, a row is a record with one nullable field
    per column that the notebook reads, and SQL conditions are evaluated in
    SQL's three-valued logic. *)

From Stdlib Require Import ZArith QArith List String Ascii Bool Lia Arith.
From Stdlib Require Import Sorting.Sorted Sorting.Permutation.
Import ListNotations.

Open Scope Z_scope.
Open Scope string_scope.

(* ================================================================== *)
(** ** SQL expressions: three-valued logic over nullable columns *)
(* ================================================================== *)

Module SQL.

(** A SQL boolean is TRUE, FALSE or NULL. *)
Definition tv := option bool.

Definition and3 (a b : tv) : tv :=
  match a, b with
  | Some false, _ | _, Some false => Some false
  | Some true, Some true => Some true
  | _, _ => None
  end.

Definition or3 (a b : tv) : tv :=
  match a, b with
  | Some true, _ | _, Some true => Some true
  | Some false, Some false => Some false
  | _, _ => None
  end.

(** A comparison with a NULL operand is NULL. *)
Definition cmp {A B : Type} (op : A -> B -> bool)
           (x : option A) (y : B) : tv :=
  match x with
  | Some v => Some (op v y)
  | None => None
  end.

Definition leZ := cmp Z.leb.
Definition ltZ := cmp Z.ltb.
Definition geZ := cmp Z.geb.
Definition gtZ := cmp Z.gtb.

Definition Qltb (a b : Q) : bool := negb (Qle_bool b a).
Definition leQ := cmp Qle_bool.
Definition ltQ := cmp Qltb.
Definition geQ := cmp (fun a b => Qle_bool b a).
Definition gtQ := cmp (fun a b => Qltb b a).

(** [x IN (v1, ..., vn)] is the disjunction of the equalities. *)
Definition in_str (x : option string) (vs : list string) : tv :=
  fold_right (fun v acc => or3 (cmp String.eqb x v) acc) (Some false) vs.

(** [WHERE] and [WHEN] take a row or a branch only when the condition
    is TRUE; FALSE and NULL both reject. *)
Definition is_true (c : tv) : bool :=
  match c with
  | Some true => true
  | _ => false
  end.

(** [CASE WHEN c1 THEN v1 ... WHEN cn THEN vn END]: the value of the
    first branch whose condition is TRUE; without [ELSE], NULL when no
    branch is taken. *)
Fixpoint case_when {A : Type} (branches : list (tv * A)) : option A :=
  match branches with
  | [] => None
  | (c, v) :: rest => if is_true c then Some v else case_when rest
  end.

End SQL.

(* ================================================================== *)
(** ** Rows of the taxi dataframes *)
(* ================================================================== *)

(** The columns of the joined trip and fare file that the notebook reads.
    The other columns of the file ([medallion], [hack_license], ...) are
    only ever dropped.  Every column is nullable; integer columns hold [Z],
    double columns hold rationals (they are only compared with literals
    and copied). *)
Record taxi_row : Type := mk_taxi_row {
  vendor_id : option string;
  rate_code : option string;
  payment_type : option string;
  passenger_count : option Z;
  trip_distance : option Q;
  trip_time_in_secs : option Z;
  fare_amount : option Q;
  tip_amount : option Q;
  pickup_hour : option Z;
  weekday : option Z
}.

(* ================================================================== *)
(** ** Traffic time bins *)
(* ================================================================== *)

Module TimeBins.

(** The [CASE] expression over [taxi_train]. *)
Definition TrafficTimeBins (pickup_hour : option Z) : option string :=
  SQL.case_when
    [ (SQL.or3 (SQL.leZ pickup_hour 6) (SQL.geZ pickup_hour 20), "Night");
      (SQL.and3 (SQL.geZ pickup_hour 7) (SQL.leZ pickup_hour 10), "AMRush");
      (SQL.and3 (SQL.geZ pickup_hour 11) (SQL.leZ pickup_hour 15),
       "Afternoon");
      (SQL.and3 (SQL.geZ pickup_hour 16) (SQL.leZ pickup_hour 19),
       "PMRush") ].

(** The [CASE] expression over [taxi_valid], written out a second time
    in the validation cell. *)
Definition TrafficTimeBins_valid (pickup_hour : option Z) : option string :=
  SQL.case_when
    [ (SQL.or3 (SQL.leZ pickup_hour 6) (SQL.geZ pickup_hour 20), "Night");
      (SQL.and3 (SQL.geZ pickup_hour 7) (SQL.leZ pickup_hour 10), "AMRush");
      (SQL.and3 (SQL.geZ pickup_hour 11) (SQL.leZ pickup_hour 15),
       "Afternoon");
      (SQL.and3 (SQL.geZ pickup_hour 16) (SQL.leZ pickup_hour 19),
       "PMRush") ].

Definition bin_labels : list string :=
  ["Night"; "AMRush"; "Afternoon"; "PMRush"].

(** The four [WHEN] conditions, as sets of hours. *)
Definition night_hours (h : Z) : Prop := h <= 6 \/ h >= 20.
Definition amrush_hours (h : Z) : Prop := 7 <= h <= 10.
Definition afternoon_hours (h : Z) : Prop := 11 <= h <= 15.
Definition pmrush_hours (h : Z) : Prop := 16 <= h <= 19.

(** The hours sent to a given label. *)
Definition preimage (l : string) (h : Z) : Prop :=
  TrafficTimeBins (Some h) = Some l.

End TimeBins.

(* ================================================================== *)
(** ** Cleaning *)
(* ================================================================== *)

Module Cleaning.
Import SQL.

Local Infix "AND" := and3 (at level 40, left associativity).

(** [filter("passenger_count > 0 and passenger_count < 8")] *)
Definition train_condition (r : taxi_row) : tv :=
  gtZ (passenger_count r) 0 AND ltZ (passenger_count r) 8.

(** Training cell: [drop('medallion').drop('hack_license')] touches no
    column of [taxi_row]; the filter keeps the rows whose condition is
    TRUE. *)
Definition taxi_df_train_cleaned (taxi_train_df : list taxi_row)
  : list taxi_row :=
  filter (fun r => is_true (train_condition r)) taxi_train_df.

(** The filter string of the validation cell. *)
Definition valid_condition (r : taxi_row) : tv :=
  gtZ (passenger_count r) 0 AND ltZ (passenger_count r) 8
  AND in_str (payment_type r) ["CSH"; "CRD"]
  AND geQ (tip_amount r) 0 AND ltQ (tip_amount r) 30
  AND geQ (fare_amount r) 1 AND ltQ (fare_amount r) 200
  AND gtQ (trip_distance r) 0 AND ltQ (trip_distance r) 100
  AND gtZ (trip_time_in_secs r) 30 AND ltZ (trip_time_in_secs r) 7200.

(** Validation cell: the fifteen dropped columns are again none of
    [taxi_row]'s. *)
Definition taxi_df_valid_cleaned (taxi_valid_df : list taxi_row)
  : list taxi_row :=
  filter (fun r => is_true (valid_condition r)) taxi_valid_df.

End Cleaning.

(* ================================================================== *)
(** ** Rows with the derived column *)
(* ================================================================== *)

(** [SELECT *, CASE ... END as TrafficTimeBins]: every column is kept and
    one is added. *)
Record row_with_newFeatures : Type := mk_row_with_newFeatures {
  base : taxi_row;
  TrafficTimeBins : option string
}.

Definition taxi_df_train_with_newFeatures (taxi_train : list taxi_row)
  : list row_with_newFeatures :=
  map (fun r => mk_row_with_newFeatures r
                  (TimeBins.TrafficTimeBins (pickup_hour r))) taxi_train.

Definition taxi_df_valid_with_newFeatures (taxi_valid : list taxi_row)
  : list row_with_newFeatures :=
  map (fun r => mk_row_with_newFeatures r
                  (TimeBins.TrafficTimeBins_valid (pickup_hour r))) taxi_valid.

(* ================================================================== *)
(** ** Failing steps *)
(* ================================================================== *)

(** A Spark job that raises has no result: [None]. *)
Definition bind {A B : Type} (x : option A) (f : A -> option B) : option B :=
  match x with
  | Some a => f a
  | None => None
  end.

Notation "x <- e ;; k" := (bind e (fun x => k))
  (at level 61, e at next level, right associativity).

(** Run a failing step on every row; the job fails as soon as one row does. *)
Fixpoint mapM {A B : Type} (f : A -> option B) (l : list A) : option (list B) :=
  match l with
  | [] => Some []
  | a :: rest => b <- f a ;; bs <- mapM f rest ;; Some (b :: bs)
  end.

(* ================================================================== *)
(** ** Categorical encoder: StringIndexer and OneHotEncoder *)
(* ================================================================== *)

Module StringIndexer.

(** Number of rows of the column that hold [s]. *)
Definition frequency (s : string) (column : list string) : nat :=
  count_occ string_dec column s.

(** The distinct values of a column, in first-seen order. *)
Fixpoint distinct (column : list string) : list string :=
  match column with
  | [] => []
  | x :: rest => x :: filter (fun y => negb (String.eqb y x)) (distinct rest)
  end.

(** Position of the first row that holds [s] (the column's length when
    there is none). *)
Fixpoint first_seen (s : string) (column : list string) : nat :=
  match column with
  | [] => 0%nat
  | x :: rest => if String.eqb s x then 0%nat else S (first_seen s rest)
  end.

(** First-seen order: the distinct values come by increasing position
    of their first occurrence. *)
Definition seen_before (column : list string) (a b : string) : Prop :=
  (first_seen a column < first_seen b column)%nat.

(** The order of the vocabulary: more frequent first, and among equally
    frequent values the one seen first. *)
Definition precedes (column : list string) (a b : string) : Prop :=
  (frequency b column < frequency a column)%nat \/
  (frequency a column = frequency b column /\ seen_before column a b).

(** Stable insertion by descending frequency: [x] goes in front of the
    first label that is not more frequent than it. *)
Fixpoint insert_by_frequency (column : list string) (x : string)
         (sorted : list string) : list string :=
  match sorted with
  | [] => [x]
  | y :: rest =>
      if (frequency y column <=? frequency x column)%nat
      then x :: y :: rest
      else y :: insert_by_frequency column x rest
  end.

Definition sort_by_frequency (column labels : list string) : list string :=
  fold_right (insert_by_frequency column) [] labels.

(** Modelled from the spec: the body of [StringIndexer.fit] is library
    code that the notebook only calls (with default parameters).  The
    vocabulary is the list of labels, a label's index is its position:
    the distinct values of the column by descending frequency, ties in
    first-seen order. *)
Definition fit_labels (column : list string) : list string :=
  sort_by_frequency column (distinct column).

(** The values of a column without NULL; a NULL makes indexing raise. *)
Definition non_null (column : list (option string)) : option (list string) :=
  mapM (fun v => v) column.

Definition fit (column : list (option string)) : option (list string) :=
  values <- non_null column ;; Some (fit_labels values).

Fixpoint index_of (s : string) (labels : list string) : option nat :=
  match labels with
  | [] => None
  | l :: rest =>
      if String.eqb s l then Some 0%nat else option_map S (index_of s rest)
  end.

(** Modelled from the spec: [StringIndexerModel.transform] looks the
    value up in the frozen vocabulary; a value that is not in it (or a
    NULL) raises. *)
Definition transform (labels : list string) (value : option string)
  : option nat :=
  s <- value ;; index_of s labels.

(** Index-to-label lookup ([IndexToString]). *)
Definition label_of (labels : list string) (i : nat) : option string :=
  nth_error labels i.

End StringIndexer.

Module OneHotEncoder.

Definition size (dropLast : bool) (numAttrs : nat) : nat :=
  if dropLast then (numAttrs - 1)%nat else numAttrs.

(** The entry at position [j] of the encoding of [index]. *)
Definition entry (index j : nat) : Q :=
  if (j =? index)%nat then 1%Q else 0%Q.

(** Modelled from the spec: the body of [OneHotEncoder.transform] is
    library code; the notebook chooses the flag [dropLast].  The output
    (written densely) has one entry per category, 1 at the index and 0
    elsewhere; with [dropLast] the last category has no entry. *)
Definition transform (dropLast : bool) (numAttrs : nat) (index : nat)
  : list Q :=
  map (entry index) (seq 0 (size dropLast numAttrs)).

(** Number of set positions of a vector. *)
Definition set_positions (v : list Q) : nat :=
  List.length (filter (fun x => negb (Qeq_bool x 0)) v).

End OneHotEncoder.

(** The flag passed to [en1] ... [en4]. *)
Definition dropLast : bool := false.

(** The fitted [Pipeline(stages=[sI1, en1, sI2, en2, sI3, en3, sI4, en4])]:
    one vocabulary per indexer (the encoders have nothing to fit, they read
    the number of categories off the indexed column). *)
Record encoder_model : Type := mk_encoder_model {
  vendorLabels : list string;
  rateLabels : list string;
  paymentLabels : list string;
  TrafficTimeBinsLabels : list string
}.

Record encoded_row : Type := mk_encoded_row {
  source : row_with_newFeatures;
  vendorIndex : nat;
  vendorVec : list Q;
  rateIndex : nat;
  rateVec : list Q;
  paymentIndex : nat;
  paymentVec : list Q;
  TrafficTimeBinsIndex : nat;
  TrafficTimeBinsVec : list Q
}.

Definition encoder_fit (df : list row_with_newFeatures)
  : option encoder_model :=
  v <- StringIndexer.fit (map (fun r => vendor_id (base r)) df) ;;
  c <- StringIndexer.fit (map (fun r => rate_code (base r)) df) ;;
  p <- StringIndexer.fit (map (fun r => payment_type (base r)) df) ;;
  t <- StringIndexer.fit (map TrafficTimeBins df) ;;
  Some (mk_encoder_model v c p t).

Definition encode_row (m : encoder_model) (r : row_with_newFeatures)
  : option encoded_row :=
  v <- StringIndexer.transform (vendorLabels m) (vendor_id (base r)) ;;
  c <- StringIndexer.transform (rateLabels m) (rate_code (base r)) ;;
  p <- StringIndexer.transform (paymentLabels m) (payment_type (base r)) ;;
  t <- StringIndexer.transform (TrafficTimeBinsLabels m) (TrafficTimeBins r) ;;
  Some (mk_encoded_row r
          v (OneHotEncoder.transform dropLast (List.length (vendorLabels m)) v)
          c (OneHotEncoder.transform dropLast (List.length (rateLabels m)) c)
          p (OneHotEncoder.transform dropLast (List.length (paymentLabels m)) p)
          t (OneHotEncoder.transform dropLast
               (List.length (TrafficTimeBinsLabels m)) t)).

Definition encoder_transform (m : encoder_model)
           (df : list row_with_newFeatures) : option (list encoded_row) :=
  mapM (encode_row m) df.

(** [encodedFinal]: the encoder pipeline is fitted on the whole dataframe
    it is given and then applied to that same dataframe. *)
Definition encodedFinal (df : list row_with_newFeatures)
  : option (list encoded_row) :=
  m <- encoder_fit df ;; encoder_transform m df.

(** [encodedFinalValid]: fitted on the training dataframe, applied to the
    validation dataframe. *)
Definition encodedFinalValid (train valid : list row_with_newFeatures)
  : option (list encoded_row) :=
  m <- encoder_fit train ;; encoder_transform m valid.

(* ================================================================== *)
(** ** Feature assembler: RFormula *)
(* ================================================================== *)

Module RFormula.

(** What a column of an encoded row holds. *)
Inductive column_value : Type :=
| Num (x : option Q)
| Vec (v : list Q)
| Str (s : option string).

Definition of_int (x : option Z) : column_value := Num (option_map inject_Z x).
Definition of_index (i : nat) : column_value :=
  Num (Some (inject_Z (Z.of_nat i))).

(** The schema of [encodedFinal], by column name. *)
Definition columns (r : encoded_row) : list (string * column_value) :=
  let t := base (source r) in
  [ ("vendor_id", Str (vendor_id t));
    ("rate_code", Str (rate_code t));
    ("payment_type", Str (payment_type t));
    ("passenger_count", of_int (passenger_count t));
    ("trip_distance", Num (trip_distance t));
    ("trip_time_in_secs", of_int (trip_time_in_secs t));
    ("fare_amount", Num (fare_amount t));
    ("tip_amount", Num (tip_amount t));
    ("pickup_hour", of_int (pickup_hour t));
    ("weekday", of_int (weekday t));
    ("TrafficTimeBins", Str (TrafficTimeBins (source r)));
    ("vendorIndex", of_index (vendorIndex r));
    ("vendorVec", Vec (vendorVec r));
    ("rateIndex", of_index (rateIndex r));
    ("rateVec", Vec (rateVec r));
    ("paymentIndex", of_index (paymentIndex r));
    ("paymentVec", Vec (paymentVec r));
    ("TrafficTimeBinsIndex", of_index (TrafficTimeBinsIndex r));
    ("TrafficTimeBinsVec", Vec (TrafficTimeBinsVec r)) ].

Definition column (name : string) (r : encoded_row) : option column_value :=
  option_map snd (find (fun c => String.eqb (fst c) name) (columns r)).

(** The formula language as far as the notebook uses it:
    [label ~ term + ... + term], blanks ignored. *)
Fixpoint strip (s : string) : string :=
  match s with
  | EmptyString => EmptyString
  | String c rest =>
      if Ascii.eqb c " " then strip rest else String c (strip rest)
  end.

Fixpoint split_on (sep : ascii) (s : string) : list string :=
  match s with
  | EmptyString => [EmptyString]
  | String c rest =>
      if Ascii.eqb c sep then EmptyString :: split_on sep rest
      else match split_on sep rest with
           | [] => [String c EmptyString]
           | piece :: pieces => String c piece :: pieces
           end
  end.

Definition parse (formula : string) : option (string * list string) :=
  match split_on "~" (strip formula) with
  | [label; rhs] => Some (label, split_on "+" rhs)
  | _ => None
  end.

(** Modelled from the spec: the body of [RFormula] is library code; the
    notebook supplies the formula.  The assembler takes the ordered
    column references of the formula and produces one fixed-order
    numeric vector: a numeric column is copied as one entry, a vector
    column is spliced in, a NULL raises.  (A string term would be
    indexed and encoded by the formula itself; the notebook's formula
    names none.) *)
Definition term_features (r : encoded_row) (term : string)
  : option (list Q) :=
  c <- column term r ;;
  match c with
  | Num (Some x) => Some [x]
  | Num None => None
  | Vec v => Some v
  | Str _ => None
  end.

(** The label is the numeric column named left of [~], copied as it is:
    a NULL stays a NULL label, the formula does not reject it. *)
Definition label_value (r : encoded_row) (label : string)
  : option (option Q) :=
  c <- column label r ;;
  match c with
  | Num x => Some x
  | _ => None
  end.

(** The [features] and [label] columns that the formula adds to a row;
    the label is nullable. *)
Definition transform (formula : string) (r : encoded_row)
  : option (list Q * option Q) :=
  f <- parse formula ;;
  segments <- mapM (term_features r) (snd f) ;;
  l <- label_value r (fst f) ;;
  Some (List.concat segments, l).

End RFormula.

Definition regFormula : string :=
  "tip_amount ~ paymentIndex + vendorIndex + rateIndex + TrafficTimeBinsIndex + pickup_hour + weekday + passenger_count + trip_time_in_secs + trip_distance + fare_amount".

(** The raw numeric fields of a row, in the order of the formula. *)
Definition numeric_fields (r : encoded_row) : list (option Q) :=
  let t := base (source r) in
  [ option_map inject_Z (pickup_hour t);
    option_map inject_Z (weekday t);
    option_map inject_Z (passenger_count t);
    option_map inject_Z (trip_time_in_secs t);
    trip_distance t;
    fare_amount t ].

(** The four category indices of a row, in the order of the formula. *)
Definition index_fields (r : encoded_row) : list Q :=
  map (fun i => inject_Z (Z.of_nat i))
      [paymentIndex r; vendorIndex r; rateIndex r; TrafficTimeBinsIndex r].

(** The four one-hot segments of a row, in the order of the formula. *)
Definition onehot_segments (r : encoded_row) : list Q :=
  paymentVec r ++ vendorVec r ++ rateVec r ++ TrafficTimeBinsVec r.

(* ================================================================== *)
(** ** Sampling, splitting and cross-validation *)
(* ================================================================== *)

(** The rows kept by a seeded Bernoulli draw: one outcome per row. *)
Definition select {A : Type} (draw : list bool) (l : list A) : list A :=
  map snd (filter fst (combine draw l)).

Definition sample {A : Type} (draw : list bool) (l : list A) : list A :=
  select draw l.

Definition randomSplit {A : Type} (draw : list bool) (l : list A)
  : list A * list A :=
  (select draw l, select (map negb draw) l).

(** One fold of [kFold]: the drawn rows are held out, the others train. *)
Definition fold_training {A : Type} (draw : list bool) (l : list A) : list A :=
  select (map negb draw) l.

Definition fold_heldout {A : Type} (draw : list bool) (l : list A) : list A :=
  select draw l.

(** The outcomes of the three draws between [encodedFinal] and one fold. *)
Record draws : Type := mk_draws {
  sample_draw : list bool;
  split_draw : list bool;
  fold_draw : list bool
}.

(** [trainData]: the first half of the split of the sample. *)
Definition trainData {A : Type} (d : draws) (l : list A) : list A :=
  fst (randomSplit (split_draw d) (sample (sample_draw d) l)).

(** The rows of a dataframe that end up in the fold's two partitions. *)
Definition fold_training_rows {A : Type} (d : draws) (l : list A) : list A :=
  fold_training (fold_draw d) (trainData d l).

Definition fold_heldout_rows {A : Type} (d : draws) (l : list A) : list A :=
  fold_heldout (fold_draw d) (trainData d l).

Record ParamMap : Type := mk_ParamMap {
  numTrees : nat;
  maxDepth : nat
}.

Definition paramGrid : list ParamMap :=
  flat_map (fun n => map (mk_ParamMap n) [3; 5; 7]%nat) [10; 25; 50]%nat.

Section CrossValidation.

(** [featureIndexer] and [randForest] are fitted by the library on the
    labelled points that the formula produces; the result is opaque. *)
Variable Model : Type.
Variable fit_estimator : ParamMap -> list (list Q * Q) -> Model.

(** The labelled point that the estimator reads off a row: the
    estimator raises on a NULL label. *)
Definition labelled_point (r : encoded_row) : option (list Q * Q) :=
  fl <- RFormula.transform regFormula r ;;
  l <- snd fl ;;
  Some (fst fl, l).

(** [Pipeline(stages=[regFormula, featureIndexer, randForest]).fit] *)
Definition pipeline_fit (p : ParamMap) (data : list encoded_row)
  : option Model :=
  points <- mapM labelled_point data ;;
  Some (fit_estimator p points).

(** The vocabularies in force inside a fold: [crossval.fit] is given
    [trainData], whose rows were encoded by [encodedFinal]. *)
Definition cv_fold_vocabularies (df : list row_with_newFeatures)
  : option encoder_model :=
  encoder_fit df.

(** The encoded training partition of a fold. *)
Definition cv_fold_training (d : draws) (df : list row_with_newFeatures)
  : option (list encoded_row) :=
  enc <- encodedFinal df ;; Some (fold_training_rows d enc).

(** The model that [crossval.fit] fits inside a fold for one point of
    the grid. *)
Definition cv_fold_fit (p : ParamMap) (d : draws)
           (df : list row_with_newFeatures) : option Model :=
  training <- cv_fold_training d df ;; pipeline_fit p training.

End CrossValidation.

(** The record invariant of the validation path: passenger count in
    [1,7], payment type cash or credit, tip in [0,30), fare in [1,200),
    distance in (0,100), trip time in (30,7200) seconds. *)
Definition valid_domain (r : taxi_row) : Prop :=
  (exists n, passenger_count r = Some n /\ 1 <= n <= 7) /\
  (payment_type r = Some "CSH" \/ payment_type r = Some "CRD") /\
  (exists t, tip_amount r = Some t /\ (0 <= t)%Q /\ (t < 30)%Q) /\
  (exists f, fare_amount r = Some f /\ (1 <= f)%Q /\ (f < 200)%Q) /\
  (exists d, trip_distance r = Some d /\ (0 < d)%Q /\ (d < 100)%Q) /\
  (exists s, trip_time_in_secs r = Some s /\ 30 < s < 7200).

(* ================================================================== *)
(** ** Worked data *)
(* ================================================================== *)

Definition example_row (vendor payment : string) (hour : Z) : taxi_row :=
  mk_taxi_row (Some vendor) (Some "1") (Some payment) (Some 1)
    (Some (3 # 2)) (Some 600) (Some (10 # 1)) (Some (2 # 1))
    (Some hour) (Some 3).

Definition example_train : list row_with_newFeatures :=
  taxi_df_train_with_newFeatures
    [ example_row "CMT" "CRD" 8;
      example_row "VTS" "CSH" 22;
      example_row "VTS" "CSH" 22 ].

Definition example_encoded : encoded_row :=
  mk_encoded_row
    (mk_row_with_newFeatures (example_row "CMT" "CRD" 8) (Some "AMRush"))
    1 [0; 1]%Q 0 [1]%Q 1 [0; 1]%Q 1 [0; 1]%Q.

(** The same row with no tip recorded. *)
Definition example_encoded_no_tip : encoded_row :=
  mk_encoded_row
    (mk_row_with_newFeatures
       (mk_taxi_row (Some "CMT") (Some "1") (Some "CRD") (Some 1)
          (Some (3 # 2)) (Some 600) (Some (10 # 1)) None (Some 8) (Some 3))
       (Some "AMRush"))
    1 [0; 1]%Q 0 [1]%Q 1 [0; 1]%Q 1 [0; 1]%Q.

(** One fold over three rows: all three are sampled and land in
    [trainData]; the fold trains on the first and holds out the others. *)
Definition example_draws : draws :=
  mk_draws [true; true; true] [true; true; true] [false; true; true].

(** Two dataframes with the same first row. *)
Definition example_train_CMT : list row_with_newFeatures :=
  taxi_df_train_with_newFeatures
    [ example_row "CMT" "CRD" 8;
      example_row "CMT" "CRD" 9;
      example_row "CMT" "CRD" 9 ].

Definition example_train_hour21 : list row_with_newFeatures :=
  taxi_df_train_with_newFeatures
    [ example_row "CMT" "CRD" 8;
      example_row "VTS" "CSH" 22;
      example_row "VTS" "CSH" 21 ].

(** An estimator that keeps the labelled points it is given. *)
Definition keep_points (p : ParamMap) (points : list (list Q * Q))
  : list (list Q * Q) := points.

(* ================================================================== *)
(** ** The rest of the notebook *)
(* ================================================================== *)

(** The branches of the traffic-time [CASE], in the order they are
    written. *)
Definition TrafficTimeBins_branches (pickup_hour : option Z)
  : list (SQL.tv * string) :=
  [ (SQL.or3 (SQL.leZ pickup_hour 6) (SQL.geZ pickup_hour 20), "Night");
    (SQL.and3 (SQL.geZ pickup_hour 7) (SQL.leZ pickup_hour 10), "AMRush");
    (SQL.and3 (SQL.geZ pickup_hour 11) (SQL.leZ pickup_hour 15),
     "Afternoon");
    (SQL.and3 (SQL.geZ pickup_hour 16) (SQL.leZ pickup_hour 19),
     "PMRush") ].

(** At most one branch of a [CASE] has a TRUE condition. *)
Definition exclusive {A : Type} (branches : list (SQL.tv * A)) : Prop :=
  forall b1 b2, In b1 branches -> In b2 branches ->
                SQL.is_true (fst b1) = true -> SQL.is_true (fst b2) = true ->
                b1 = b2.

(** [testData]: the second half of the split of the sample. *)
Definition testData {A : Type} (d : draws) (l : list A) : list A :=
  snd (randomSplit (split_draw d) (sample (sample_draw d) l)).

(** A row with a NULL in a column that the validation filter reads. *)
Definition has_null_filter_column (r : taxi_row) : Prop :=
  passenger_count r = None \/ payment_type r = None \/
  tip_amount r = None \/ fare_amount r = None \/
  trip_distance r = None \/ trip_time_in_secs r = None.

(** A raw row whose four categorical inputs are all present. *)
Definition categories_present (r : taxi_row) : Prop :=
  vendor_id r <> None /\ rate_code r <> None /\
  payment_type r <> None /\ pickup_hour r <> None.

(** [v] is the one-hot vector of length [n] set at position [i]. *)
Definition one_hot_at (v : list Q) (n i : nat) : Prop :=
  List.length v = n /\ nth_error v i = Some 1%Q /\
  OneHotEncoder.set_positions v = 1%nat.

Module SaveModel.

Definition modelDir : string := "../Outputs/".

(** [s.replace(old, new)] where [old] is one character, as in both calls
    of the save cell: every occurrence of [old] becomes [new]. *)
Fixpoint replace (old : ascii) (new : string) (s : string) : string :=
  match s with
  | EmptyString => EmptyString
  | String c rest =>
      if Ascii.eqb c old then new ++ replace old new rest
      else String c (replace old new rest)
  end.

(** [now] is the text of the clock, [unicode(datetime.datetime.now())]. *)
Definition datestamp (now : string) : string :=
  replace ":" "_" (replace " " "" now).

Definition fileName (now : string) : string :=
  "RandomForestRegressionModel_" ++ datestamp now.

Definition randForestDirfilename (now : string) : string :=
  modelDir ++ fileName now.

(** Number of occurrences of a character. *)
Fixpoint occurrences (c : ascii) (s : string) : nat :=
  match s with
  | EmptyString => 0%nat
  | String x rest =>
      if Ascii.eqb x c then S (occurrences c rest) else occurrences c rest
  end.

End SaveModel.

(* ================================================================== *)
(** * Properties *)
(* ================================================================== *)

(** ** Three-valued logic *)

Lemma and3_true (a b : SQL.tv) :
  SQL.is_true (SQL.and3 a b) = true <->
  SQL.is_true a = true /\ SQL.is_true b = true.
Proof.
  destruct a as [[|]|], b as [[|]|]; simpl; intuition congruence.
Qed.

Lemma or3_true (a b : SQL.tv) :
  SQL.is_true (SQL.or3 a b) = true <->
  SQL.is_true a = true \/ SQL.is_true b = true.
Proof.
  destruct a as [[|]|], b as [[|]|]; simpl; intuition congruence.
Qed.

Lemma cmp_true {A B : Type} (op : A -> B -> bool) (x : option A) (y : B) :
  SQL.is_true (SQL.cmp op x y) = true <->
  exists v, x = Some v /\ op v y = true.
Proof.
  destruct x as [v|]; simpl.
  - destruct (op v y) eqn:E; split.
    + intros _. exists v. auto.
    + reflexivity.
    + discriminate.
    + intros [w [H1 H2]]. inversion H1; subst. congruence.
  - split; [discriminate | intros [v [H _]]; discriminate].
Qed.

Lemma Qltb_lt (a b : Q) : SQL.Qltb a b = true <-> (a < b)%Q.
Proof.
  unfold SQL.Qltb. rewrite negb_true_iff. split.
  - intros H. apply Qnot_le_lt. intros Hle.
    apply Qle_bool_iff in Hle. congruence.
  - intros H. destruct (Qle_bool b a) eqn:E; [|reflexivity].
    apply Qle_bool_iff in E. exfalso. apply (Qlt_not_le _ _ H E).
Qed.

Lemma in_str_true (x : option string) (vs : list string) :
  SQL.is_true (SQL.in_str x vs) = true <-> exists v, x = Some v /\ In v vs.
Proof.
  induction vs as [|w vs IH]; simpl.
  - split; [discriminate | intros [v [_ []]]].
  - rewrite or3_true, IH, cmp_true. split.
    + intros [[v [Hx He]] | [v [Hx Hin]]].
      * apply String.eqb_eq in He. subst. exists w. auto.
      * exists v. auto.
    + intros [v [Hx [Hw | Hin]]].
      * left. exists v. split; [assumption|]. subst. apply String.eqb_refl.
      * right. exists v. auto.
Qed.

(** ** Traffic time bins *)

Lemma TrafficTimeBins_valid_same (x : option Z) :
  TimeBins.TrafficTimeBins_valid x = TimeBins.TrafficTimeBins x.
Proof. reflexivity. Qed.

Ltac bins_cases h :=
  unfold TimeBins.TrafficTimeBins, SQL.leZ, SQL.geZ; simpl;
  rewrite ?Z.geb_leb;
  repeat match goal with
         | |- context [Z.leb ?a ?b] => destruct (Z.leb_spec a b); simpl
         end; try reflexivity; try lia.

Lemma TrafficTimeBins_Night (h : Z) :
  TimeBins.night_hours h -> TimeBins.TrafficTimeBins (Some h) = Some "Night".
Proof. unfold TimeBins.night_hours. intros H. bins_cases h. Qed.

Lemma TrafficTimeBins_AMRush (h : Z) :
  TimeBins.amrush_hours h -> TimeBins.TrafficTimeBins (Some h) = Some "AMRush".
Proof. unfold TimeBins.amrush_hours. intros H. bins_cases h. Qed.

Lemma TrafficTimeBins_Afternoon (h : Z) :
  TimeBins.afternoon_hours h ->
  TimeBins.TrafficTimeBins (Some h) = Some "Afternoon".
Proof. unfold TimeBins.afternoon_hours. intros H. bins_cases h. Qed.

Lemma TrafficTimeBins_PMRush (h : Z) :
  TimeBins.pmrush_hours h -> TimeBins.TrafficTimeBins (Some h) = Some "PMRush".
Proof. unfold TimeBins.pmrush_hours. intros H. bins_cases h. Qed.

(** Every integer meets one of the four conditions. *)
Lemma hours_covered (h : Z) :
  TimeBins.night_hours h \/ TimeBins.amrush_hours h \/
  TimeBins.afternoon_hours h \/ TimeBins.pmrush_hours h.
Proof.
  unfold TimeBins.night_hours, TimeBins.amrush_hours,
    TimeBins.afternoon_hours, TimeBins.pmrush_hours. lia.
Qed.

(** The column is NULL exactly when the hour is. *)
Lemma TrafficTimeBins_null_iff (x : option Z) :
  TimeBins.TrafficTimeBins x = None <-> x = None.
Proof.
  destruct x as [h|]; [|split; reflexivity].
  split; [|discriminate]. intros H.
  destruct (hours_covered h) as [C | [C | [C | C]]];
    [ rewrite (TrafficTimeBins_Night h C) in H
    | rewrite (TrafficTimeBins_AMRush h C) in H
    | rewrite (TrafficTimeBins_Afternoon h C) in H
    | rewrite (TrafficTimeBins_PMRush h C) in H ]; discriminate.
Qed.

Lemma preimage_iff (h : Z) :
  (TimeBins.preimage "Night" h <-> TimeBins.night_hours h) /\
  (TimeBins.preimage "AMRush" h <-> TimeBins.amrush_hours h) /\
  (TimeBins.preimage "Afternoon" h <-> TimeBins.afternoon_hours h) /\
  (TimeBins.preimage "PMRush" h <-> TimeBins.pmrush_hours h).
Proof.
  unfold TimeBins.preimage.
  destruct (hours_covered h) as [C | [C | [C | C]]];
    [ rewrite (TrafficTimeBins_Night h C)
    | rewrite (TrafficTimeBins_AMRush h C)
    | rewrite (TrafficTimeBins_Afternoon h C)
    | rewrite (TrafficTimeBins_PMRush h C) ];
    unfold TimeBins.night_hours, TimeBins.amrush_hours,
      TimeBins.afternoon_hours, TimeBins.pmrush_hours in *;
    repeat split; intros; try discriminate; try lia.
Qed.

(** C4: for every hour h in [0,23] the classifier returns one of the four
    labels and no other; each label's preimage is the hour range of its
    WHEN condition, the four preimages cover the hour and no two of them
    share it. *)
Theorem TrafficTimeBins_partition (h : Z) (Hh : 0 <= h <= 23) :
  (exists l, In l TimeBins.bin_labels /\
             TimeBins.TrafficTimeBins (Some h) = Some l /\
             forall l', TimeBins.TrafficTimeBins (Some h) = Some l' ->
                        l' = l) /\
  (TimeBins.preimage "Night" h <-> 0 <= h <= 6 \/ 20 <= h <= 23) /\
  (TimeBins.preimage "AMRush" h <-> 7 <= h <= 10) /\
  (TimeBins.preimage "Afternoon" h <-> 11 <= h <= 15) /\
  (TimeBins.preimage "PMRush" h <-> 16 <= h <= 19) /\
  (TimeBins.preimage "Night" h \/ TimeBins.preimage "AMRush" h \/
   TimeBins.preimage "Afternoon" h \/ TimeBins.preimage "PMRush" h) /\
  ~ (TimeBins.preimage "Night" h /\ TimeBins.preimage "AMRush" h) /\
  ~ (TimeBins.preimage "Night" h /\ TimeBins.preimage "Afternoon" h) /\
  ~ (TimeBins.preimage "Night" h /\ TimeBins.preimage "PMRush" h) /\
  ~ (TimeBins.preimage "AMRush" h /\ TimeBins.preimage "Afternoon" h) /\
  ~ (TimeBins.preimage "AMRush" h /\ TimeBins.preimage "PMRush" h) /\
  ~ (TimeBins.preimage "Afternoon" h /\ TimeBins.preimage "PMRush" h).
Proof.
  destruct (preimage_iff h) as (PN & PA & PF & PP).
  split.
  - unfold TimeBins.bin_labels.
    destruct (hours_covered h) as [C | [C | [C | C]]];
      [ rewrite (TrafficTimeBins_Night h C); exists "Night"
      | rewrite (TrafficTimeBins_AMRush h C); exists "AMRush"
      | rewrite (TrafficTimeBins_Afternoon h C); exists "Afternoon"
      | rewrite (TrafficTimeBins_PMRush h C); exists "PMRush" ];
      (split; [simpl; tauto | split; [reflexivity | congruence]]).
  - rewrite PN, PA, PF, PP.
    unfold TimeBins.night_hours, TimeBins.amrush_hours,
      TimeBins.afternoon_hours, TimeBins.pmrush_hours.
    repeat split; try lia.
Qed.

Lemma TrafficTimeBins_partition_at_17 :
  0 <= 17 <= 23 /\ TimeBins.preimage "PMRush" 17.
Proof.
  assert (H : 0 <= 17 <= 23) by lia.
  split; [exact H|].
  apply (proj1 (proj2 (proj2 (proj2 (proj2
           (TrafficTimeBins_partition 17 H)))))).
  lia.
Defined.

(** C5: the ten boundary hours fall in the stated bins. *)
Theorem TrafficTimeBins_boundaries :
  TimeBins.TrafficTimeBins (Some 0) = Some "Night" /\
  TimeBins.TrafficTimeBins (Some 6) = Some "Night" /\
  TimeBins.TrafficTimeBins (Some 7) = Some "AMRush" /\
  TimeBins.TrafficTimeBins (Some 10) = Some "AMRush" /\
  TimeBins.TrafficTimeBins (Some 11) = Some "Afternoon" /\
  TimeBins.TrafficTimeBins (Some 15) = Some "Afternoon" /\
  TimeBins.TrafficTimeBins (Some 16) = Some "PMRush" /\
  TimeBins.TrafficTimeBins (Some 19) = Some "PMRush" /\
  TimeBins.TrafficTimeBins (Some 20) = Some "Night" /\
  TimeBins.TrafficTimeBins (Some 23) = Some "Night".
Proof. repeat split. Qed.

(** C10 (as stated, refuted): hour 24 and hour -1 lie outside [0,23], yet
    the column is "Night" and not NULL, on both paths. *)
Lemma out_of_range_hour_not_null :
  (24 < 0 \/ 24 <= 24) /\
  TimeBins.TrafficTimeBins (Some 24) = Some "Night" /\
  TimeBins.TrafficTimeBins (Some 24) <> None /\
  (-1 < 0 \/ 24 <= -1) /\
  TimeBins.TrafficTimeBins_valid (Some (-1)) = Some "Night" /\
  TimeBins.TrafficTimeBins_valid (Some (-1)) <> None.
Proof.
  repeat split; try (right; lia); try (left; lia); discriminate.
Qed.

(** C10 (amended): for every hour outside [0,23] the first WHEN condition
    (pickup_hour <= 6 OR pickup_hour >= 20) is TRUE, so the column is
    "Night" on the training and on the validation path: no error, no
    fifth label, and no NULL. *)
Theorem out_of_range_hour_is_Night (h : Z) (Hout : h < 0 \/ 24 <= h) :
  TimeBins.TrafficTimeBins (Some h) = Some "Night" /\
  TimeBins.TrafficTimeBins_valid (Some h) = Some "Night".
Proof.
  assert (N : TimeBins.night_hours h) by (unfold TimeBins.night_hours; lia).
  split.
  - apply TrafficTimeBins_Night; exact N.
  - rewrite (TrafficTimeBins_valid_same (Some h)).
    apply TrafficTimeBins_Night; exact N.
Qed.

Lemma out_of_range_hour_is_Night_at_30 :
  (30 < 0 \/ 24 <= 30) /\ TimeBins.TrafficTimeBins (Some 30) = Some "Night".
Proof.
  assert (H : 30 < 0 \/ 24 <= 30) by (right; lia).
  split; [exact H|].
  exact (proj1 (out_of_range_hour_is_Night 30 H)).
Defined.

(** ** Cleaning *)

Lemma train_condition_true (r : taxi_row) :
  SQL.is_true (Cleaning.train_condition r) = true <->
  exists n, passenger_count r = Some n /\ 1 <= n <= 7.
Proof.
  unfold Cleaning.train_condition, SQL.gtZ, SQL.ltZ.
  rewrite and3_true, !cmp_true. split.
  - intros [[n [Hn Hgt]] [m [Hm Hlt]]].
    rewrite Hn in Hm. inversion Hm; subst m.
    exists n. split; [assumption|].
    apply Z.gtb_lt in Hgt. apply Z.ltb_lt in Hlt. lia.
  - intros [n [Hn Hr]]. split; exists n; (split; [assumption|]).
    + apply Z.gtb_lt. lia.
    + apply Z.ltb_lt. lia.
Qed.

(** C7: the training filter keeps exactly the rows whose passenger count
    lies in [1,7]: a count of 0 or 8 is excluded, a count of 7 is kept. *)
Theorem train_cleaning_passenger_count (df : list taxi_row) (r : taxi_row) :
  (In r (Cleaning.taxi_df_train_cleaned df) <->
   In r df /\ exists n, passenger_count r = Some n /\ 1 <= n <= 7) /\
  (passenger_count r = Some 0 -> ~ In r (Cleaning.taxi_df_train_cleaned df)) /\
  (passenger_count r = Some 7 -> In r df ->
   In r (Cleaning.taxi_df_train_cleaned df)) /\
  (passenger_count r = Some 8 -> ~ In r (Cleaning.taxi_df_train_cleaned df)).
Proof.
  assert (K : In r (Cleaning.taxi_df_train_cleaned df) <->
              In r df /\ exists n, passenger_count r = Some n /\ 1 <= n <= 7).
  { unfold Cleaning.taxi_df_train_cleaned.
    rewrite filter_In, train_condition_true. reflexivity. }
  split; [exact K|]. repeat split.
  - intros H0 Hin. apply K in Hin. destruct Hin as [_ [n [Hn Hr]]].
    rewrite H0 in Hn. inversion Hn. lia.
  - intros H7 Hin. apply K. split; [assumption|].
    exists 7. split; [assumption | lia].
  - intros H8 Hin. apply K in Hin. destruct Hin as [_ [n [Hn Hr]]].
    rewrite H8 in Hn. inversion Hn. lia.
Qed.

Lemma train_cleaning_keeps_seven :
  let r := mk_taxi_row (Some "CMT") (Some "1") (Some "CRD") (Some 7)
             (Some (3 # 2)) (Some 600) (Some (10 # 1)) (Some (2 # 1))
             (Some 8) (Some 3) in
  In r (Cleaning.taxi_df_train_cleaned [r]).
Proof.
  intros r.
  apply (proj1 (proj2 (proj2 (train_cleaning_passenger_count [r] r)))).
  - reflexivity.
  - left. reflexivity.
Defined.

Lemma valid_condition_true (r : taxi_row) :
  SQL.is_true (Cleaning.valid_condition r) = true <-> valid_domain r.
Proof.
  unfold Cleaning.valid_condition, valid_domain.
  rewrite !and3_true, in_str_true.
  unfold SQL.gtZ, SQL.ltZ, SQL.geQ, SQL.ltQ, SQL.gtQ.
  rewrite !cmp_true. split.
  - intros H.
    repeat match goal with
           | K : _ /\ _ |- _ => destruct K
           | K : exists _, _ |- _ => destruct K
           end.
    repeat match goal with
           | K1 : ?c = Some ?a, K2 : ?c = Some ?b |- _ =>
               rewrite K1 in K2; inversion K2; subst b; clear K2
           end.
    repeat match goal with
           | K : (_ >? _) = true |- _ => apply Z.gtb_lt in K
           | K : (_ <? _) = true |- _ => apply Z.ltb_lt in K
           | K : Qle_bool _ _ = true |- _ => apply Qle_bool_iff in K
           | K : SQL.Qltb _ _ = true |- _ => apply Qltb_lt in K
           | K : In _ (_ :: _) |- _ => simpl in K
           end.
    repeat split; try (eexists; split; [eassumption | auto; lia]).
    match goal with
    | K : _ \/ _ |- _ => destruct K as [E | [E | []]]; subst; auto
    end.
  - intros ([n [Hn Hr]] & Hp & [t [Ht [Ht1 Ht2]]] & [f [Hf [Hf1 Hf2]]]
            & [d [Hd [Hd1 Hd2]]] & [s [Hs Hsr]]).
    repeat split.
    + exists n. split; [assumption | apply Z.gtb_lt; lia].
    + exists n. split; [assumption | apply Z.ltb_lt; lia].
    + destruct Hp as [Hp | Hp]; [exists "CSH" | exists "CRD"];
        (split; [assumption | simpl; tauto]).
    + exists t. split; [assumption | apply Qle_bool_iff; assumption].
    + exists t. split; [assumption | apply Qltb_lt; assumption].
    + exists f. split; [assumption | apply Qle_bool_iff; assumption].
    + exists f. split; [assumption | apply Qltb_lt; assumption].
    + exists d. split; [assumption | apply Qltb_lt; assumption].
    + exists d. split; [assumption | apply Qltb_lt; assumption].
    + exists s. split; [assumption | apply Z.gtb_lt; lia].
    + exists s. split; [assumption | apply Z.ltb_lt; lia].
Qed.

(** C8: a row survives the validation filter exactly when it meets every
    predicate of the invariant: passenger count in [1,7], payment type
    CSH (cash) or CRD (credit), tip in [0,30), fare in [1,200), distance in
    (0,100), trip time in (30,7200); a row that violates one is excluded. *)
Theorem valid_cleaning_invariant (df : list taxi_row) (r : taxi_row) :
  In r (Cleaning.taxi_df_valid_cleaned df) <-> In r df /\ valid_domain r.
Proof.
  unfold Cleaning.taxi_df_valid_cleaned.
  rewrite filter_In, valid_condition_true. reflexivity.
Qed.

Lemma valid_cleaning_keeps_example :
  In (example_row "CMT" "CRD" 8)
     (Cleaning.taxi_df_valid_cleaned [example_row "CMT" "CRD" 8]).
Proof.
  apply (proj2 (valid_cleaning_invariant
                  [example_row "CMT" "CRD" 8] (example_row "CMT" "CRD" 8))).
  split; [left; reflexivity|].
  unfold valid_domain, example_row; simpl.
  repeat split.
  - exists 1. split; [reflexivity | lia].
  - right. reflexivity.
  - exists (2 # 1)%Q. repeat split; try (unfold Qle, Qlt; simpl; lia).
  - exists (10 # 1)%Q. repeat split; try (unfold Qle, Qlt; simpl; lia).
  - exists (3 # 2)%Q. repeat split; try (unfold Qle, Qlt; simpl; lia).
  - exists 600. split; [reflexivity | lia].
Defined.

(** ** Vocabularies *)

Section StringIndexerFacts.

Local Open Scope nat_scope.
Import StringIndexer.

Lemma distinct_In (column : list string) (s : string) :
  In s (distinct column) <-> In s column.
Proof.
  induction column as [|x rest IH]; simpl; [reflexivity|].
  rewrite filter_In, IH, negb_true_iff, String.eqb_neq.
  destruct (string_dec x s) as [E | N]; [tauto|].
  split; [tauto|]. intros [E | H]; [tauto|]. right. split; congruence.
Qed.

Lemma distinct_NoDup (column : list string) : NoDup (distinct column).
Proof.
  induction column as [|x rest IH]; simpl; constructor.
  - rewrite filter_In, String.eqb_refl. simpl. intros [_ H]. discriminate.
  - apply NoDup_filter. exact IH.
Qed.

Lemma StronglySorted_filter {A : Type} (R : A -> A -> Prop)
      (f : A -> bool) (l : list A) :
  StronglySorted R l -> StronglySorted R (filter f l).
Proof.
  induction 1 as [|a l Hl IH Ha]; simpl; [constructor|].
  destruct (f a); [|exact IH].
  constructor; [exact IH|].
  rewrite Forall_forall in *. intros y Hy.
  apply filter_In in Hy. apply Ha. tauto.
Qed.

Lemma StronglySorted_weaken {A : Type} (R R' : A -> A -> Prop)
      (l : list A) :
  (forall a b, In a l -> In b l -> R a b -> R' a b) ->
  StronglySorted R l -> StronglySorted R' l.
Proof.
  intros Himp H. induction H as [|a l Hl IH Ha]; constructor.
  - apply IH. intros x y Hx Hy. apply Himp; right; assumption.
  - rewrite Forall_forall in *. intros y Hy.
    apply Himp; [left; reflexivity | right; assumption | auto].
Qed.

Lemma StronglySorted_nth {A : Type} (R : A -> A -> Prop) (l : list A) :
  StronglySorted R l ->
  forall i j a b, i < j -> nth_error l i = Some a ->
                  nth_error l j = Some b -> R a b.
Proof.
  induction 1 as [|x l Hl IH Hx]; intros i j a b Hij Hi Hj.
  - destruct i; discriminate.
  - destruct j as [|j]; [lia|]. simpl in Hj.
    destruct i as [|i]; simpl in Hi.
    + inversion Hi; subst a. rewrite Forall_forall in Hx.
      apply Hx. eapply nth_error_In. exact Hj.
    + apply (IH i j); [lia | assumption | assumption].
Qed.

Lemma distinct_first_seen (column : list string) :
  StronglySorted (seen_before column) (distinct column).
Proof.
  induction column as [|x rest IH]; simpl; [constructor|].
  constructor.
  - apply (StronglySorted_weaken (seen_before rest));
      [|apply StronglySorted_filter; exact IH].
    intros a b Ha Hb. apply filter_In in Ha, Hb.
    destruct Ha as [_ Ha]. destruct Hb as [_ Hb].
    apply negb_true_iff in Ha, Hb.
    unfold seen_before. simpl. rewrite Ha, Hb. lia.
  - rewrite Forall_forall. intros y Hy.
    apply filter_In in Hy. destruct Hy as [_ Hy].
    apply negb_true_iff in Hy.
    unfold seen_before. simpl. rewrite String.eqb_refl, Hy. lia.
Qed.

Lemma insert_by_frequency_In (column : list string) (x : string)
      (l : list string) (z : string) :
  In z (insert_by_frequency column x l) <-> z = x \/ In z l.
Proof.
  induction l as [|y l IH]; simpl.
  - intuition congruence.
  - destruct (frequency y column <=? frequency x column); simpl.
    + intuition congruence.
    + rewrite IH. intuition congruence.
Qed.

Lemma insert_by_frequency_NoDup (column : list string) (x : string)
      (l : list string) :
  ~ In x l -> NoDup l -> NoDup (insert_by_frequency column x l).
Proof.
  induction l as [|y l IH]; simpl; intros Hx Hl.
  - constructor; [intros [] | constructor].
  - destruct (frequency y column <=? frequency x column).
    + constructor; [simpl; exact Hx | exact Hl].
    + inversion Hl as [|? ? Hy Hl']; subst. constructor.
      * rewrite insert_by_frequency_In. intros [E | H]; [|contradiction].
        subst. apply Hx. left. reflexivity.
      * apply IH; [intros H; apply Hx; right; exact H | exact Hl'].
Qed.

Lemma insert_by_frequency_sorted (column : list string) (x : string)
      (l : list string) :
  StronglySorted (precedes column) l ->
  Forall (seen_before column x) l ->
  StronglySorted (precedes column) (insert_by_frequency column x l).
Proof.
  induction 1 as [|y l Hl IH Hy]; intros Hx; simpl.
  - constructor; constructor.
  - inversion Hx as [|? ? Hxy Hxl]; subst.
    destruct (Nat.leb_spec (frequency y column) (frequency x column))
      as [Hle | Hgt].
    + constructor; [constructor; assumption|].
      assert (Pxy : precedes column x y)
        by (unfold precedes, seen_before in *; lia).
      constructor; [exact Pxy|].
      rewrite Forall_forall in *. intros z Hz.
      specialize (Hy z Hz). specialize (Hxl z Hz).
      unfold precedes, seen_before in *. lia.
    + constructor; [apply IH; exact Hxl|].
      rewrite Forall_forall in *. intros z Hz.
      apply insert_by_frequency_In in Hz. destruct Hz as [E | Hz].
      * subst z. unfold precedes. lia.
      * apply Hy. exact Hz.
Qed.

Lemma sort_by_frequency_In (column l : list string) (z : string) :
  In z (sort_by_frequency column l) <-> In z l.
Proof.
  induction l as [|x l IH]; simpl; [reflexivity|].
  rewrite insert_by_frequency_In, IH. intuition congruence.
Qed.

Lemma sort_by_frequency_NoDup (column l : list string) :
  NoDup l -> NoDup (sort_by_frequency column l).
Proof.
  induction 1 as [|x l Hx Hl IH]; simpl; [constructor|].
  apply insert_by_frequency_NoDup; [|exact IH].
  rewrite sort_by_frequency_In. exact Hx.
Qed.

Lemma sort_by_frequency_sorted (column l : list string) :
  StronglySorted (seen_before column) l ->
  StronglySorted (precedes column) (sort_by_frequency column l).
Proof.
  induction 1 as [|x l Hl IH Hx]; simpl; [constructor|].
  apply insert_by_frequency_sorted; [exact IH|].
  rewrite Forall_forall in *. intros z Hz.
  apply Hx. apply sort_by_frequency_In in Hz. exact Hz.
Qed.

Lemma index_of_nth (labels : list string) (s : string) (i : nat) :
  index_of s labels = Some i -> nth_error labels i = Some s.
Proof.
  revert i. induction labels as [|l rest IH]; simpl; intros i H.
  - discriminate.
  - destruct (String.eqb_spec s l) as [E | N].
    + inversion H; subst. reflexivity.
    + destruct (index_of s rest) as [k|]; simpl in H; [|discriminate].
      inversion H; subst. simpl. apply IH. reflexivity.
Qed.

Lemma nth_index_of (labels : list string) (s : string) (i : nat) :
  NoDup labels -> nth_error labels i = Some s ->
  index_of s labels = Some i.
Proof.
  intros Hnd. revert i.
  induction Hnd as [|l rest Hl Hrest IH]; intros i H.
  - destruct i; discriminate.
  - simpl. destruct i as [|i]; simpl in H.
    + inversion H; subst. rewrite String.eqb_refl. reflexivity.
    + destruct (String.eqb_spec s l) as [E | N].
      * subst. exfalso. apply Hl. eapply nth_error_In. exact H.
      * rewrite (IH i H). reflexivity.
Qed.

Lemma index_of_In (labels : list string) (s : string) :
  In s labels <-> exists i, index_of s labels = Some i.
Proof.
  split.
  - induction labels as [|l rest IH]; simpl; [intros []|].
    intros H. destruct (String.eqb_spec s l) as [E | N].
    + exists 0. reflexivity.
    + destruct H as [E | H]; [congruence|].
      destruct (IH H) as [i Hi]. rewrite Hi. exists (S i). reflexivity.
  - intros [i Hi]. eapply nth_error_In. apply index_of_nth. exact Hi.
Qed.

Lemma non_null_Some (column : list string) :
  non_null (map Some column) = Some column.
Proof.
  unfold non_null.
  induction column as [|x rest IH]; simpl; [reflexivity|].
  rewrite IH. reflexivity.
Qed.

Lemma fit_labels_NoDup (column : list string) : NoDup (fit_labels column).
Proof. apply sort_by_frequency_NoDup, distinct_NoDup. Qed.

Lemma fit_labels_In (column : list string) (s : string) :
  In s (fit_labels column) <-> In s column.
Proof.
  unfold fit_labels. rewrite sort_by_frequency_In. apply distinct_In.
Qed.

(** C3: the fitted vocabulary holds exactly the distinct values of the
    training column, each once; a value's index is its position, so the
    indices are 0..n-1 without gap; a value with a smaller index is more
    frequent, or equally frequent and seen first. *)
Theorem fit_labels_vocabulary (column : list string) :
  fit (map Some column) = Some (fit_labels column) /\
  NoDup (fit_labels column) /\
  (forall s, In s column <->
             exists i, index_of s (fit_labels column) = Some i) /\
  (forall s i, index_of s (fit_labels column) = Some i <->
               label_of (fit_labels column) i = Some s) /\
  (forall i, i < List.length (fit_labels column) <->
             exists s, index_of s (fit_labels column) = Some i) /\
  (forall a b i j,
      index_of a (fit_labels column) = Some i ->
      index_of b (fit_labels column) = Some j ->
      i < j ->
      frequency b column < frequency a column \/
      (frequency a column = frequency b column /\
       first_seen a column < first_seen b column)).
Proof.
  assert (ND := fit_labels_NoDup column).
  assert (IDX : forall s i, index_of s (fit_labels column) = Some i <->
                            label_of (fit_labels column) i = Some s).
  { intros s i. unfold label_of. split.
    - apply index_of_nth.
    - apply nth_index_of. exact ND. }
  repeat split.
  - unfold fit. rewrite non_null_Some. reflexivity.
  - exact ND.
  - intros H. apply index_of_In, fit_labels_In. exact H.
  - intros H. apply fit_labels_In, index_of_In. exact H.
  - apply IDX.
  - apply IDX.
  - intros Hi. apply nth_error_Some in Hi.
    destruct (nth_error (fit_labels column) i) as [s|] eqn:E; [|congruence].
    exists s. apply IDX. exact E.
  - intros [s Hs]. apply IDX in Hs. apply nth_error_Some.
    unfold label_of in Hs. congruence.
  - intros a b i j Ha Hb Hij.
    apply IDX in Ha. apply IDX in Hb.
    exact (StronglySorted_nth _ _
             (sort_by_frequency_sorted column _ (distinct_first_seen column))
             i j a b Hij Ha Hb).
Qed.

End StringIndexerFacts.

Example fit_labels_notebook_table :
  StringIndexer.fit_labels ["a"; "b"; "b"; "b"; "a"] = ["b"; "a"].
Proof. reflexivity. Qed.

Example fit_labels_tie_first_seen :
  StringIndexer.fit_labels ["c"; "a"; "b"; "b"; "a"; "d"] =
  ["a"; "b"; "c"; "d"].
Proof. reflexivity. Qed.

Lemma fit_labels_vocabulary_at_tie :
  (StringIndexer.frequency "d" ["c"; "a"; "b"; "b"; "a"; "d"]
   < StringIndexer.frequency "c" ["c"; "a"; "b"; "b"; "a"; "d"])%nat \/
  (StringIndexer.frequency "c" ["c"; "a"; "b"; "b"; "a"; "d"]
   = StringIndexer.frequency "d" ["c"; "a"; "b"; "b"; "a"; "d"] /\
   (StringIndexer.first_seen "c" ["c"; "a"; "b"; "b"; "a"; "d"]
    < StringIndexer.first_seen "d" ["c"; "a"; "b"; "b"; "a"; "d"])%nat).
Proof.
  apply (proj2 (proj2 (proj2 (proj2 (proj2
           (fit_labels_vocabulary ["c"; "a"; "b"; "b"; "a"; "d"])))))
           "c" "d" 2%nat 3%nat).
  - reflexivity.
  - reflexivity.
  - lia.
Defined.

(** ** One-hot encoding *)

Section OneHotFacts.

Local Open Scope nat_scope.

Lemma onehot_length (flag : bool) (n i : nat) :
  List.length (OneHotEncoder.transform flag n i) = OneHotEncoder.size flag n.
Proof.
  unfold OneHotEncoder.transform. rewrite length_map, length_seq. reflexivity.
Qed.

Lemma onehot_nth (flag : bool) (n i j : nat) :
  nth_error (OneHotEncoder.transform flag n i) j =
  if j <? OneHotEncoder.size flag n
  then Some (OneHotEncoder.entry i j) else None.
Proof.
  unfold OneHotEncoder.transform. rewrite nth_error_map, nth_error_seq.
  destruct (j <? OneHotEncoder.size flag n); reflexivity.
Qed.

Lemma set_positions_seq (i start len : nat) :
  OneHotEncoder.set_positions
    (map (OneHotEncoder.entry i) (seq start len)) =
  if (start <=? i) && (i <? start + len) then 1 else 0.
Proof.
  unfold OneHotEncoder.set_positions.
  revert start. induction len as [|len IH]; intros start.
  - simpl. destruct (Nat.leb_spec start i), (Nat.ltb_spec i (start + 0));
      simpl; try reflexivity; lia.
  - cbn [seq map filter]. specialize (IH (S start)).
    unfold OneHotEncoder.entry at 1.
    destruct (Nat.eqb_spec start i) as [E | N].
    + change (negb (Qeq_bool 1 0)) with true. cbn [List.length].
      rewrite IH.
      destruct (Nat.leb_spec (S start) i), (Nat.leb_spec start i),
        (Nat.ltb_spec i (start + S len)); simpl; try reflexivity; lia.
    + change (negb (Qeq_bool 0 0)) with false. cbv iota.
      rewrite IH.
      destruct (Nat.leb_spec (S start) i), (Nat.leb_spec start i),
        (Nat.ltb_spec i (start + S len)), (Nat.ltb_spec i (S start + len));
        simpl; try reflexivity; lia.
Qed.

Lemma onehot_set_positions (flag : bool) (n i : nat) :
  OneHotEncoder.set_positions (OneHotEncoder.transform flag n i) =
  if i <? OneHotEncoder.size flag n then 1 else 0.
Proof.
  unfold OneHotEncoder.transform. rewrite set_positions_seq. reflexivity.
Qed.

(** With [dropLast=True] the last category would have no set position. *)
Lemma onehot_dropLast_collapses (n : nat) :
  0 < n ->
  OneHotEncoder.set_positions (OneHotEncoder.transform true n (n - 1)) = 0.
Proof.
  intros Hn. rewrite onehot_set_positions. simpl.
  destruct (Nat.ltb_spec (n - 1) (n - 1)); [lia | reflexivity].
Qed.

Lemma index_of_bound (labels : list string) (s : string) (i : nat) :
  StringIndexer.index_of s labels = Some i -> i < List.length labels.
Proof.
  intros H. apply index_of_nth in H. apply nth_error_Some. congruence.
Qed.

(** C6: for every value of a vocabulary, the encoder as configured
    ([dropLast=False]) yields a vector with one entry per vocabulary
    entry, 1 at the value's index and 0 everywhere else: exactly one set
    position. *)
Theorem onehot_exactly_one (labels : list string) (s : string)
        (Hs : In s labels) :
  exists i,
    StringIndexer.transform labels (Some s) = Some i /\
    List.length (OneHotEncoder.transform dropLast (List.length labels) i)
    = List.length labels /\
    nth_error (OneHotEncoder.transform dropLast (List.length labels) i) i
    = Some 1%Q /\
    (forall j, j < List.length labels -> j <> i ->
       nth_error (OneHotEncoder.transform dropLast (List.length labels) i) j
       = Some 0%Q) /\
    OneHotEncoder.set_positions
      (OneHotEncoder.transform dropLast (List.length labels) i) = 1.
Proof.
  apply index_of_In in Hs. destruct Hs as [i Hi].
  assert (Hb := index_of_bound labels s i Hi).
  exists i. simpl. split; [exact Hi|].
  split; [apply onehot_length|].
  split; [|split].
  - rewrite onehot_nth. simpl. unfold OneHotEncoder.entry.
    rewrite Nat.eqb_refl.
    destruct (Nat.ltb_spec i (List.length labels)); [reflexivity | lia].
  - intros j Hj Hne. rewrite onehot_nth. simpl. unfold OneHotEncoder.entry.
    destruct (Nat.ltb_spec j (List.length labels)); [|lia].
    destruct (Nat.eqb_spec j i); [contradiction | reflexivity].
  - rewrite onehot_set_positions. simpl.
    destruct (Nat.ltb_spec i (List.length labels)); [reflexivity | lia].
Qed.

End OneHotFacts.

Lemma onehot_exactly_one_at_CRD :
  In "CRD" ["CSH"; "CRD"; "NOC"] /\
  exists i,
    StringIndexer.transform ["CSH"; "CRD"; "NOC"] (Some "CRD") = Some i /\
    OneHotEncoder.set_positions (OneHotEncoder.transform dropLast 3 i) = 1%nat.
Proof.
  assert (H : In "CRD" ["CSH"; "CRD"; "NOC"]) by (simpl; tauto).
  split; [exact H|].
  destruct (onehot_exactly_one ["CSH"; "CRD"; "NOC"] "CRD" H)
    as [i (Hi & _ & _ & _ & Hc)].
  exists i. split; [exact Hi | exact Hc].
Defined.

(** ** Feature assembler *)

Lemma regFormula_parsed :
  RFormula.parse regFormula =
  Some ("tip_amount",
        ["paymentIndex"; "vendorIndex"; "rateIndex"; "TrafficTimeBinsIndex";
         "pickup_hour"; "weekday"; "passenger_count"; "trip_time_in_secs";
         "trip_distance"; "fare_amount"]).
Proof. reflexivity. Qed.

Lemma transform_regFormula (r : encoded_row) :
  RFormula.transform regFormula r =
  (nums <- mapM (fun x => x) (numeric_fields r) ;;
   Some ((index_fields r ++ nums)%list, tip_amount (base (source r)))).
Proof.
  unfold RFormula.transform. rewrite regFormula_parsed.
  destruct r as [[[v c p n d s f t h w] b] vi vv ci cv pi pv ti tv].
  unfold numeric_fields, index_fields. cbn -[inject_Z Z.of_nat].
  destruct h as [h|]; [|reflexivity].
  destruct w as [w|]; [|reflexivity].
  destruct n as [n|]; [|reflexivity].
  destruct s as [s|]; [|reflexivity].
  destruct d as [d|]; [|reflexivity].
  destruct f as [f|]; reflexivity.
Qed.

Lemma mapM_length {A B : Type} (f : A -> option B) (l : list A)
      (l' : list B) :
  mapM f l = Some l' -> List.length l' = List.length l.
Proof.
  revert l'. induction l as [|a l IH]; simpl; intros l' H.
  - inversion H. reflexivity.
  - destruct (f a) as [b|]; simpl in H; [|discriminate].
    destruct (mapM f l) as [bs|]; simpl in H; [|discriminate].
    inversion H; subst. simpl. rewrite (IH bs eq_refl). reflexivity.
Qed.

(** C2 (as stated, refuted): on the first row of [example_train] the
    assembled vector has 10 entries, while the one-hot segments and the
    raw numeric fields together have 13; the vector holds the four
    category indices, not the segments. *)
Lemma features_are_not_onehot_segments :
  exists e rest feats l,
    encodedFinal example_train = Some (e :: rest) /\
    RFormula.transform regFormula e = Some (feats, l) /\
    List.length feats = 10%nat /\
    List.length (onehot_segments e) = 7%nat /\
    List.length (numeric_fields e) = 6%nat /\
    List.length feats <>
    (List.length (onehot_segments e) + List.length (numeric_fields e))%nat /\
    firstn 4 feats = index_fields e.
Proof.
  destruct (encodedFinal example_train) as [[|e rest]|] eqn:E;
    try (vm_compute in E; discriminate).
  exists e, rest.
  vm_compute in E. inversion E; subst e.
  eexists. eexists.
  split; [reflexivity|].
  split; [vm_compute; reflexivity|].
  repeat split; try reflexivity. vm_compute. discriminate.
Qed.

(** C2 (amended): the assembled vector is the four category indices
    (paymentIndex, vendorIndex, rateIndex, TrafficTimeBinsIndex) followed
    by the six raw numeric fields (pickup_hour, weekday, passenger_count,
    trip_time_in_secs, trip_distance, fare_amount), in the order of the
    formula; its length is 10 whatever the vocabularies.  A row whose six
    numeric fields are present gets this vector, whatever its label; and
    every vector that is assembled has this layout. *)
Theorem assembled_features_layout (r : encoded_row) :
  (forall nums, mapM (fun x => x) (numeric_fields r) = Some nums ->
     option_map fst (RFormula.transform regFormula r)
     = Some (index_fields r ++ nums)%list) /\
  (forall feats l, RFormula.transform regFormula r = Some (feats, l) ->
     exists nums, mapM (fun x => x) (numeric_fields r) = Some nums /\
                  feats = (index_fields r ++ nums)%list /\
                  List.length feats = 10%nat).
Proof.
  rewrite transform_regFormula. split.
  - intros nums E. rewrite E. reflexivity.
  - intros feats l.
    destruct (mapM (fun x => x) (numeric_fields r)) as [nums|] eqn:E;
      cbn [bind]; [|discriminate].
    intros H. inversion H; subst. exists nums.
    split; [reflexivity|]. split; [reflexivity|].
    apply mapM_length in E. unfold index_fields.
    cbn [map app List.length]. rewrite E. reflexivity.
Qed.

Lemma assembled_features_layout_example :
  mapM (fun x => x) (numeric_fields example_encoded_no_tip)
  = Some [8; 3; 1; 600; 3 # 2; 10]%Q /\
  RFormula.transform regFormula example_encoded_no_tip
  = Some ([1; 1; 0; 1; 8; 3; 1; 600; 3 # 2; 10]%Q, None) /\
  option_map fst (RFormula.transform regFormula example_encoded_no_tip)
  = Some [1; 1; 0; 1; 8; 3; 1; 600; 3 # 2; 10]%Q.
Proof.
  assert (H : mapM (fun x => x) (numeric_fields example_encoded_no_tip)
              = Some [8; 3; 1; 600; 3 # 2; 10]%Q) by reflexivity.
  split; [exact H|]. split; [reflexivity|].
  exact (proj1 (assembled_features_layout example_encoded_no_tip) _ H).
Defined.

(** ** Cross-validation folds *)

Lemma mapM_select {A B : Type} (f : A -> option B) (l : list A)
      (l' : list B) (draw : list bool) :
  mapM f l = Some l' -> mapM f (select draw l) = Some (select draw l').
Proof.
  revert l' draw. induction l as [|a l IH]; simpl; intros l' draw H.
  - inversion H. destruct draw; reflexivity.
  - destruct (f a) as [b|] eqn:Ea; simpl in H; [|discriminate].
    destruct (mapM f l) as [bs|] eqn:El; simpl in H; [|discriminate].
    inversion H; subst l'. destruct draw as [|[|] draw]; unfold select; simpl.
    + reflexivity.
    + rewrite Ea. simpl. fold (select draw l). fold (select draw bs).
      rewrite (IH bs draw eq_refl). reflexivity.
    + fold (select draw l). fold (select draw bs). apply IH. reflexivity.
Qed.

Lemma mapM_fold_training_rows {A B : Type} (f : A -> option B) (d : draws)
      (l : list A) (l' : list B) :
  mapM f l = Some l' ->
  mapM f (fold_training_rows d l) = Some (fold_training_rows d l').
Proof.
  intros H. unfold fold_training_rows, fold_training, trainData, randomSplit,
    sample. simpl. repeat apply mapM_select. exact H.
Qed.

Lemma mapM_total {A B : Type} (f : A -> option B) (l : list A) :
  (forall a, In a l -> exists b, f a = Some b) ->
  exists l', mapM f l = Some l'.
Proof.
  induction l as [|a l IH]; simpl; intros H.
  - exists []. reflexivity.
  - destruct (H a (or_introl eq_refl)) as [b Hb]. rewrite Hb.
    destruct IH as [bs Hbs]; [intros x Hx; apply H; right; exact Hx|].
    rewrite Hbs. exists (b :: bs). reflexivity.
Qed.

Lemma non_null_In {A : Type} (col : A -> option string) (df : list A)
      (values : list string) (r : A) :
  StringIndexer.non_null (map col df) = Some values -> In r df ->
  exists s, col r = Some s /\ In s values.
Proof.
  unfold StringIndexer.non_null.
  revert values. induction df as [|a df IH]; simpl; intros values H Hr.
  - contradiction.
  - destruct (col a) as [s|] eqn:Ea; simpl in H; [|discriminate].
    destruct (mapM (fun v => v) (map col df)) as [vs|] eqn:El;
      simpl in H; [|discriminate].
    inversion H; subst values. destruct Hr as [E | Hr].
    + subst a. exists s. split; [exact Ea | left; reflexivity].
    + destruct (IH vs eq_refl Hr) as [s' [Hs' Hin]].
      exists s'. split; [exact Hs' | right; exact Hin].
Qed.

(** A vocabulary fitted on a column indexes every row of that column. *)
Lemma fit_covers_column {A : Type} (col : A -> option string)
      (df : list A) (labels : list string) (r : A) :
  StringIndexer.fit (map col df) = Some labels -> In r df ->
  exists i, StringIndexer.transform labels (col r) = Some i.
Proof.
  unfold StringIndexer.fit. intros H Hr.
  destruct (StringIndexer.non_null (map col df)) as [values|] eqn:E;
    simpl in H; [|discriminate].
  inversion H; subst labels.
  destruct (non_null_In col df values r E Hr) as [s [Hs Hin]].
  rewrite Hs. simpl. apply index_of_In, fit_labels_In. exact Hin.
Qed.

(** The encoder pipeline never raises on the dataframe it was fitted on. *)
Lemma encoder_transform_total (df : list row_with_newFeatures)
      (m : encoder_model) :
  encoder_fit df = Some m -> exists enc, encoder_transform m df = Some enc.
Proof.
  unfold encoder_fit, encoder_transform. intros H.
  destruct (StringIndexer.fit (map (fun r => vendor_id (base r)) df))
    as [v|] eqn:Ev; simpl in H; [|discriminate].
  destruct (StringIndexer.fit (map (fun r => rate_code (base r)) df))
    as [c|] eqn:Ec; simpl in H; [|discriminate].
  destruct (StringIndexer.fit (map (fun r => payment_type (base r)) df))
    as [p|] eqn:Ep; simpl in H; [|discriminate].
  destruct (StringIndexer.fit (map TrafficTimeBins df))
    as [t|] eqn:Et; simpl in H; [|discriminate].
  inversion H; subst m. apply mapM_total. intros r Hr.
  unfold encode_row. simpl.
  destruct (fit_covers_column _ df v r Ev Hr) as [i1 H1].
  destruct (fit_covers_column _ df c r Ec Hr) as [i2 H2].
  destruct (fit_covers_column _ df p r Ep Hr) as [i3 H3].
  destruct (fit_covers_column _ df t r Et Hr) as [i4 H4].
  rewrite H1, H2, H3, H4. simpl. eexists. reflexivity.
Qed.

Lemma cv_fold_training_eq (d : draws) (df : list row_with_newFeatures) :
  cv_fold_training d df =
  (m <- encoder_fit df ;; mapM (encode_row m) (fold_training_rows d df)).
Proof.
  unfold cv_fold_training, encodedFinal.
  destruct (encoder_fit df) as [m|] eqn:E; simpl; [|reflexivity].
  destruct (encoder_transform_total df m E) as [enc Henc].
  rewrite Henc. simpl. symmetry.
  apply mapM_fold_training_rows. exact Henc.
Qed.

(** C1 (as stated, refuted): [example_train] and [example_train_CMT] have
    the same training partition in the fold and different held-out rows;
    the vendor vocabulary in force in the fold is [VTS; CMT] for one and
    [CMT] for the other, and the training row itself is encoded
    differently, so the estimator is fitted on different points. *)
Lemma fold_vocabularies_depend_on_heldout :
  fold_training_rows example_draws example_train =
  fold_training_rows example_draws example_train_CMT /\
  fold_heldout_rows example_draws example_train <>
  fold_heldout_rows example_draws example_train_CMT /\
  option_map vendorLabels (cv_fold_vocabularies example_train) =
  Some ["VTS"; "CMT"] /\
  option_map vendorLabels (cv_fold_vocabularies example_train_CMT) =
  Some ["CMT"] /\
  cv_fold_vocabularies example_train <>
  cv_fold_vocabularies example_train_CMT /\
  cv_fold_training example_draws example_train <>
  cv_fold_training example_draws example_train_CMT /\
  cv_fold_fit _ keep_points (mk_ParamMap 10 3) example_draws example_train <>
  cv_fold_fit _ keep_points (mk_ParamMap 10 3) example_draws example_train_CMT.
Proof.
  repeat split; try reflexivity; vm_compute; discriminate.
Qed.

(** C1 (amended): the vocabularies in force inside a fold are fitted once
    on the whole dataframe given to the encoder pipeline, before sampling,
    splitting and folding; the encoded training partition of a fold is its
    raw training partition encoded row by row with those vocabularies.
    Hence for two dataframes that agree on a fold's training partition and
    yield the same vocabularies, the fold's encoded training partition and
    the model fitted on it are identical, whatever the held-out rows. *)
Theorem fold_fit_depends_on_training_and_vocabularies
        (Model : Type) (fit_estimator : ParamMap -> list (list Q * Q) -> Model)
        (p : ParamMap) (d : draws) (df1 df2 : list row_with_newFeatures)
        (Hvoc : cv_fold_vocabularies df1 = cv_fold_vocabularies df2)
        (Htrain : fold_training_rows d df1 = fold_training_rows d df2) :
  cv_fold_training d df1 = cv_fold_training d df2 /\
  cv_fold_fit Model fit_estimator p d df1 =
  cv_fold_fit Model fit_estimator p d df2.
Proof.
  assert (T : cv_fold_training d df1 = cv_fold_training d df2).
  { rewrite !cv_fold_training_eq. unfold cv_fold_vocabularies in Hvoc.
    rewrite Hvoc, Htrain. reflexivity. }
  split; [exact T|]. unfold cv_fold_fit. rewrite T. reflexivity.
Qed.

Lemma fold_fit_ignores_heldout_hour :
  fold_heldout_rows example_draws example_train <>
  fold_heldout_rows example_draws example_train_hour21 /\
  cv_fold_fit _ keep_points (mk_ParamMap 10 3) example_draws example_train =
  cv_fold_fit _ keep_points (mk_ParamMap 10 3) example_draws
    example_train_hour21.
Proof.
  split; [vm_compute; discriminate|].
  apply (fold_fit_depends_on_training_and_vocabularies
           _ keep_points (mk_ParamMap 10 3) example_draws
           example_train example_train_hour21).
  - vm_compute. reflexivity.
  - vm_compute. reflexivity.
Defined.

(* ================================================================== *)
(** * Further properties of the notebook *)
(* ================================================================== *)

(** ** The two cleaning filters compared *)

Lemma valid_condition_train_condition (r : taxi_row) :
  SQL.is_true (Cleaning.valid_condition r) = true ->
  SQL.is_true (Cleaning.train_condition r) = true.
Proof.
  rewrite valid_condition_true, train_condition_true.
  intros [H _]. exact H.
Qed.

Lemma filter_filter_implied {A : Type} (f g : A -> bool) (l : list A) :
  (forall a, f a = true -> g a = true) ->
  filter f (filter g l) = filter f l.
Proof.
  intros Himp. induction l as [|a l IH]; simpl; [reflexivity|].
  destruct (g a) eqn:Eg; simpl.
  - rewrite IH. reflexivity.
  - destruct (f a) eqn:Ef; [|exact IH].
    rewrite (Himp a Ef) in Eg. discriminate.
Qed.

(** X1: the validation filter is at least as strict as the training
    filter: on any dataframe, cleaning for validation after cleaning for
    training changes nothing more than cleaning for validation alone, and
    every row kept for validation is kept for training. *)
Theorem valid_cleaning_refines_train_cleaning (df : list taxi_row) :
  Cleaning.taxi_df_valid_cleaned (Cleaning.taxi_df_train_cleaned df) =
  Cleaning.taxi_df_valid_cleaned df /\
  (forall r, In r (Cleaning.taxi_df_valid_cleaned df) ->
             In r (Cleaning.taxi_df_train_cleaned df)).
Proof.
  unfold Cleaning.taxi_df_valid_cleaned, Cleaning.taxi_df_train_cleaned.
  split.
  - apply filter_filter_implied. apply valid_condition_train_condition.
  - intros r Hr. apply filter_In in Hr. destruct Hr as [Hin Hv].
    apply filter_In. split; [exact Hin|].
    apply valid_condition_train_condition. exact Hv.
Qed.

Lemma valid_cleaning_refines_train_cleaning_example :
  In (example_row "CMT" "CRD" 8)
     (Cleaning.taxi_df_train_cleaned [example_row "CMT" "CRD" 8]).
Proof.
  apply (proj2 (valid_cleaning_refines_train_cleaning
                  [example_row "CMT" "CRD" 8])).
  vm_compute. left. reflexivity.
Defined.

(** X2: the training filter reads no column but the passenger count: a
    row of the dataframe with a passenger count in [1,7] is kept for
    training whatever its payment type, tip, fare, distance and trip
    time, also when it breaks the validation invariant, in which case the
    validation filter drops it. *)
Theorem train_cleaning_keeps_rows_validation_drops
        (df : list taxi_row) (r : taxi_row)
        (Hin : In r df)
        (Hcount : exists n, passenger_count r = Some n /\ 1 <= n <= 7)
        (Hout : ~ valid_domain r) :
  In r (Cleaning.taxi_df_train_cleaned df) /\
  ~ In r (Cleaning.taxi_df_valid_cleaned df).
Proof.
  unfold Cleaning.taxi_df_train_cleaned, Cleaning.taxi_df_valid_cleaned.
  rewrite !filter_In, train_condition_true, valid_condition_true.
  split; [split; assumption|]. intros [_ H]. exact (Hout H).
Qed.

Lemma train_cleaning_keeps_tip_of_50 :
  let r := mk_taxi_row (Some "CMT") (Some "1") (Some "NOC") (Some 2)
             (Some (3 # 2)) (Some 600) (Some (10 # 1)) (Some (50 # 1))
             (Some 8) (Some 3) in
  In r (Cleaning.taxi_df_train_cleaned [r]) /\
  ~ In r (Cleaning.taxi_df_valid_cleaned [r]).
Proof.
  intros r.
  apply (train_cleaning_keeps_rows_validation_drops [r] r).
  - left. reflexivity.
  - exists 2. split; [reflexivity | lia].
  - intros (_ & [H | H] & _); discriminate.
Defined.

(** X3: a NULL never passes a filter: a row with a NULL passenger count
    is dropped by the training filter, and a row with a NULL in any of
    the six columns that the validation filter reads is dropped by the
    validation filter. *)
Theorem null_rows_are_dropped (df : list taxi_row) (r : taxi_row) :
  (passenger_count r = None ->
   ~ In r (Cleaning.taxi_df_train_cleaned df)) /\
  (has_null_filter_column r ->
   ~ In r (Cleaning.taxi_df_valid_cleaned df)).
Proof.
  unfold Cleaning.taxi_df_train_cleaned, Cleaning.taxi_df_valid_cleaned.
  rewrite !filter_In, train_condition_true, valid_condition_true.
  split.
  - intros Hnull [_ [n [Hn _]]]. congruence.
  - unfold has_null_filter_column, valid_domain.
    intros Hnull (_ & [n [Hn _]] & Hp & [t [Ht _]] & [f [Hf _]]
                  & [d [Hd _]] & [s [Hs _]]).
    destruct Hnull as [N | [N | [N | [N | [N | N]]]]]; try congruence.
    destruct Hp; congruence.
Qed.

Lemma null_fare_is_dropped :
  let r := mk_taxi_row (Some "CMT") (Some "1") (Some "CRD") (Some 2)
             (Some (3 # 2)) (Some 600) None (Some (2 # 1))
             (Some 8) (Some 3) in
  ~ In r (Cleaning.taxi_df_valid_cleaned [r]).
Proof.
  intros r.
  apply (proj2 (null_rows_are_dropped [r] r)).
  unfold has_null_filter_column. simpl. tauto.
Defined.

(** ** The derived column on whole dataframes *)

Lemma TrafficTimeBins_label (x : option Z) (l : string) :
  TimeBins.TrafficTimeBins x = Some l -> In l TimeBins.bin_labels.
Proof.
  destruct x as [h|]; [|discriminate].
  unfold TimeBins.bin_labels.
  destruct (hours_covered h) as [C | [C | [C | C]]];
    [ rewrite (TrafficTimeBins_Night h C)
    | rewrite (TrafficTimeBins_AMRush h C)
    | rewrite (TrafficTimeBins_Afternoon h C)
    | rewrite (TrafficTimeBins_PMRush h C) ];
    intros H; inversion H; simpl; tauto.
Qed.

(** X4: the binning query keeps every row, in order, with its columns
    unchanged; on every row, whatever the hour (in or out of 0..23), the
    new column is NULL exactly when pickup_hour is NULL and is otherwise
    one of the four labels. *)
Theorem with_newFeatures_rows (df : list taxi_row) :
  map base (taxi_df_train_with_newFeatures df) = df /\
  (forall r, In r (taxi_df_train_with_newFeatures df) ->
     (TrafficTimeBins r = None <-> pickup_hour (base r) = None) /\
     (forall l, TrafficTimeBins r = Some l -> In l TimeBins.bin_labels)).
Proof.
  unfold taxi_df_train_with_newFeatures. split.
  - rewrite map_map. simpl. apply map_id.
  - intros r Hr. apply in_map_iff in Hr. destruct Hr as [t [Ht _]].
    subst r. simpl. split.
    + apply TrafficTimeBins_null_iff.
    + apply TrafficTimeBins_label.
Qed.

Lemma with_newFeatures_rows_example :
  In "Night" TimeBins.bin_labels.
Proof.
  apply (proj2 (proj2 (with_newFeatures_rows [example_row "CMT" "CRD" 99])
                      (mk_row_with_newFeatures (example_row "CMT" "CRD" 99)
                                               (Some "Night"))
                      (or_introl eq_refl))
               "Night").
  reflexivity.
Defined.

(** ** Order of the branches *)

Lemma exclusive_tail {A : Type} (b : SQL.tv * A) (bs : list (SQL.tv * A)) :
  exclusive (b :: bs) -> exclusive bs.
Proof.
  intros E b1 b2 H1 H2. apply E; right; assumption.
Qed.

Lemma exclusive_Permutation {A : Type} (bs bs' : list (SQL.tv * A)) :
  Permutation bs bs' -> exclusive bs -> exclusive bs'.
Proof.
  intros P E b1 b2 H1 H2.
  apply E; apply (Permutation_in _ (Permutation_sym P)); assumption.
Qed.

(** When at most one condition is TRUE, a [CASE] does not depend on the
    order of its branches. *)
Lemma case_when_Permutation {A : Type} (bs bs' : list (SQL.tv * A)) :
  Permutation bs bs' -> exclusive bs ->
  SQL.case_when bs = SQL.case_when bs'.
Proof.
  induction 1 as [| [c v] l l' P IH | [c v] [c' v'] l | l l' l'' P1 IH1 P2 IH2];
    intros E.
  - reflexivity.
  - simpl. destruct (SQL.is_true c); [reflexivity|].
    apply IH. exact (exclusive_tail _ _ E).
  - simpl. destruct (SQL.is_true c) eqn:Ec, (SQL.is_true c') eqn:Ec';
      try reflexivity.
    assert (H : (c, v) = (c', v')).
    { apply E; simpl; auto. }
    inversion H. reflexivity.
  - rewrite (IH1 E). apply IH2. exact (exclusive_Permutation _ _ P1 E).
Qed.

Lemma TrafficTimeBins_branches_exclusive (x : option Z) :
  exclusive (TrafficTimeBins_branches x).
Proof.
  intros b1 b2 H1 H2 T1 T2.
  destruct x as [h|].
  - unfold TrafficTimeBins_branches, SQL.leZ, SQL.geZ in H1, H2.
    simpl in H1, H2. rewrite ?Z.geb_leb in H1, H2.
    destruct H1 as [E1 | [E1 | [E1 | [E1 | []]]]];
      destruct H2 as [E2 | [E2 | [E2 | [E2 | []]]]];
      subst b1 b2; try reflexivity; exfalso;
      simpl in T1, T2;
      repeat match goal with
             | K : context [Z.leb ?a ?b] |- _ =>
                 destruct (Z.leb_spec a b); simpl in K
             end; try discriminate; lia.
  - unfold TrafficTimeBins_branches in H1. simpl in H1.
    destruct H1 as [E1 | [E1 | [E1 | [E1 | []]]]]; subst b1;
      simpl in T1; discriminate.
Qed.

(** X5: the four WHEN conditions never hold together, so the value of the
    traffic-time column does not depend on the order in which the
    branches are written: any reordering of the four branches computes
    the same column, for every hour and for NULL. *)
Theorem TrafficTimeBins_branch_order (x : option Z)
        (reordered : list (SQL.tv * string))
        (Hperm : Permutation (TrafficTimeBins_branches x) reordered) :
  SQL.case_when reordered = TimeBins.TrafficTimeBins x /\
  SQL.case_when reordered = TimeBins.TrafficTimeBins_valid x.
Proof.
  assert (H : SQL.case_when reordered = TimeBins.TrafficTimeBins x).
  { symmetry.
    exact (case_when_Permutation _ _ Hperm
             (TrafficTimeBins_branches_exclusive x)). }
  split; [exact H|].
  rewrite (TrafficTimeBins_valid_same x). exact H.
Qed.

Lemma TrafficTimeBins_branch_order_reversed :
  SQL.case_when (rev (TrafficTimeBins_branches (Some 12))) =
  TimeBins.TrafficTimeBins (Some 12).
Proof.
  apply (proj1 (TrafficTimeBins_branch_order (Some 12)
                  (rev (TrafficTimeBins_branches (Some 12)))
                  (Permutation_rev _))).
Defined.

(** ** The encoder pipeline on whole dataframes *)

Lemma mapM_In {A B : Type} (f : A -> option B) (l : list A) (l' : list B)
      (b : B) :
  mapM f l = Some l' -> In b l' -> exists a, In a l /\ f a = Some b.
Proof.
  revert l'. induction l as [|a l IH]; simpl; intros l' H Hb.
  - inversion H; subst. contradiction.
  - destruct (f a) as [b0|] eqn:Ea; simpl in H; [|discriminate].
    destruct (mapM f l) as [bs|] eqn:El; simpl in H; [|discriminate].
    inversion H; subst l'. destruct Hb as [E | Hb].
    + subst b0. exists a. auto.
    + destruct (IH bs eq_refl Hb) as [a' [Ha' Hf]]. exists a'. auto.
Qed.

Lemma mapM_map_inverse {A B : Type} (f : A -> option B) (g : B -> A)
      (l : list A) (l' : list B) :
  (forall a b, f a = Some b -> g b = a) ->
  mapM f l = Some l' -> map g l' = l.
Proof.
  intros Hg. revert l'. induction l as [|a l IH]; simpl; intros l' H.
  - inversion H. reflexivity.
  - destruct (f a) as [b|] eqn:Ea; simpl in H; [|discriminate].
    destruct (mapM f l) as [bs|] eqn:El; simpl in H; [|discriminate].
    inversion H; subst l'. simpl.
    rewrite (Hg a b Ea), (IH bs eq_refl). reflexivity.
Qed.

(** What a successfully encoded row holds. *)
Lemma encode_row_Some (m : encoder_model) (r : row_with_newFeatures)
      (e : encoded_row) :
  encode_row m r = Some e ->
  source e = r /\
  StringIndexer.transform (vendorLabels m) (vendor_id (base r))
  = Some (vendorIndex e) /\
  StringIndexer.transform (rateLabels m) (rate_code (base r))
  = Some (rateIndex e) /\
  StringIndexer.transform (paymentLabels m) (payment_type (base r))
  = Some (paymentIndex e) /\
  StringIndexer.transform (TrafficTimeBinsLabels m) (TrafficTimeBins r)
  = Some (TrafficTimeBinsIndex e) /\
  vendorVec e = OneHotEncoder.transform dropLast
                  (List.length (vendorLabels m)) (vendorIndex e) /\
  rateVec e = OneHotEncoder.transform dropLast
                (List.length (rateLabels m)) (rateIndex e) /\
  paymentVec e = OneHotEncoder.transform dropLast
                   (List.length (paymentLabels m)) (paymentIndex e) /\
  TrafficTimeBinsVec e = OneHotEncoder.transform dropLast
                           (List.length (TrafficTimeBinsLabels m))
                           (TrafficTimeBinsIndex e).
Proof.
  unfold encode_row. intros H.
  destruct (StringIndexer.transform (vendorLabels m) (vendor_id (base r)))
    as [v|]; simpl in H; [|discriminate].
  destruct (StringIndexer.transform (rateLabels m) (rate_code (base r)))
    as [c|]; simpl in H; [|discriminate].
  destruct (StringIndexer.transform (paymentLabels m) (payment_type (base r)))
    as [p|]; simpl in H; [|discriminate].
  destruct (StringIndexer.transform (TrafficTimeBinsLabels m)
              (TrafficTimeBins r)) as [t|]; simpl in H; [|discriminate].
  inversion H; subst e. simpl. repeat split; reflexivity.
Qed.

Lemma encodedFinalValid_rows (train valid : list row_with_newFeatures)
      (m : encoder_model) (encv : list encoded_row) (e : encoded_row) :
  encoder_fit train = Some m ->
  encodedFinalValid train valid = Some encv -> In e encv ->
  In (source e) valid /\ encode_row m (source e) = Some e.
Proof.
  unfold encodedFinalValid, encoder_transform. intros Hm H He.
  rewrite Hm in H. simpl in H.
  destruct (mapM_In _ _ _ e H He) as [r [Hr Hf]].
  destruct (encode_row_Some m r e Hf) as [Hs _]. subst r. auto.
Qed.

Lemma transform_decodes (labels : list string) (value : option string)
      (i : nat) :
  StringIndexer.transform labels value = Some i ->
  StringIndexer.label_of labels i = value.
Proof.
  unfold StringIndexer.transform, StringIndexer.label_of.
  destruct value as [s|]; simpl; [|discriminate].
  intros H. apply index_of_nth. exact H.
Qed.

Lemma transform_bound (labels : list string) (value : option string)
      (i : nat) :
  StringIndexer.transform labels value = Some i ->
  (i < List.length labels)%nat.
Proof.
  unfold StringIndexer.transform.
  destruct value as [s|]; simpl; [|discriminate].
  apply index_of_bound.
Qed.

(** X6: encoding neither drops, duplicates nor reorders rows and leaves
    the source columns as they are: when the encoder pipeline fitted on
    the training dataframe succeeds on a dataframe, the source rows of the
    result are that dataframe. *)
Theorem encodedFinalValid_keeps_rows
        (train valid : list row_with_newFeatures) (encv : list encoded_row)
        (H : encodedFinalValid train valid = Some encv) :
  map source encv = valid /\ List.length encv = List.length valid.
Proof.
  unfold encodedFinalValid, encoder_transform in H.
  destruct (encoder_fit train) as [m|]; simpl in H; [|discriminate].
  split.
  - apply (mapM_map_inverse (encode_row m)); [|exact H].
    intros r e He. apply (encode_row_Some m r e He).
  - apply (mapM_length _ _ _ H).
Qed.

Lemma encodedFinalValid_keeps_rows_example :
  exists encv, encodedFinalValid example_train example_train_hour21
               = Some encv /\
               map source encv = example_train_hour21.
Proof.
  destruct (encodedFinalValid example_train example_train_hour21)
    as [encv|] eqn:E; [|vm_compute in E; discriminate].
  exists encv. split; [reflexivity|].
  exact (proj1 (encodedFinalValid_keeps_rows _ _ _ E)).
Defined.

(** X7: decoding undoes encoding on every encoded row: looking the four
    indices of a row up in the vocabularies fitted on the training
    dataframe gives back the row's vendor_id, rate_code, payment_type and
    TrafficTimeBins. *)
Theorem encoded_indices_decode
        (train valid : list row_with_newFeatures) (m : encoder_model)
        (encv : list encoded_row) (e : encoded_row)
        (Hm : encoder_fit train = Some m)
        (H : encodedFinalValid train valid = Some encv)
        (He : In e encv) :
  StringIndexer.label_of (vendorLabels m) (vendorIndex e)
  = vendor_id (base (source e)) /\
  StringIndexer.label_of (rateLabels m) (rateIndex e)
  = rate_code (base (source e)) /\
  StringIndexer.label_of (paymentLabels m) (paymentIndex e)
  = payment_type (base (source e)) /\
  StringIndexer.label_of (TrafficTimeBinsLabels m) (TrafficTimeBinsIndex e)
  = TrafficTimeBins (source e).
Proof.
  destruct (encodedFinalValid_rows train valid m encv e Hm H He) as [_ Hr].
  destruct (encode_row_Some m _ e Hr) as (_ & Hv & Hc & Hp & Ht & _).
  repeat split; apply transform_decodes; assumption.
Qed.

Lemma encoded_indices_decode_example :
  exists m encv e,
    encoder_fit example_train = Some m /\
    encodedFinalValid example_train example_train_hour21 = Some encv /\
    In e encv /\
    StringIndexer.label_of (vendorLabels m) (vendorIndex e)
    = vendor_id (base (source e)).
Proof.
  destruct (encoder_fit example_train) as [m|] eqn:Em;
    [|vm_compute in Em; discriminate].
  destruct (encodedFinalValid example_train example_train_hour21)
    as [[|e rest]|] eqn:E; try (vm_compute in E; discriminate).
  exists m, (e :: rest), e.
  assert (He : In e (e :: rest)) by (left; reflexivity).
  repeat split; try reflexivity; try exact He.
  exact (proj1 (encoded_indices_decode _ _ m _ e Em E He)).
Defined.

Lemma transform_one_hot (labels : list string) (value : option string)
      (i : nat) :
  StringIndexer.transform labels value = Some i ->
  one_hot_at (OneHotEncoder.transform dropLast (List.length labels) i)
             (List.length labels) i.
Proof.
  intros H. apply transform_bound in H. unfold one_hot_at.
  rewrite onehot_length, onehot_nth, onehot_set_positions. simpl.
  unfold OneHotEncoder.entry. rewrite Nat.eqb_refl.
  destruct (Nat.ltb_spec i (List.length labels)); [|lia].
  repeat split; reflexivity.
Qed.

(** X8: the pipeline wires each encoder to its indexer correctly: on
    every encoded row, each of the four vectors has one entry per label
    of its vocabulary, holds 1 at the row's index for that column, and has
    exactly one set position. *)
Theorem encoded_vectors_one_hot
        (train valid : list row_with_newFeatures) (m : encoder_model)
        (encv : list encoded_row) (e : encoded_row)
        (Hm : encoder_fit train = Some m)
        (H : encodedFinalValid train valid = Some encv)
        (He : In e encv) :
  one_hot_at (vendorVec e) (List.length (vendorLabels m)) (vendorIndex e) /\
  one_hot_at (rateVec e) (List.length (rateLabels m)) (rateIndex e) /\
  one_hot_at (paymentVec e) (List.length (paymentLabels m))
             (paymentIndex e) /\
  one_hot_at (TrafficTimeBinsVec e) (List.length (TrafficTimeBinsLabels m))
             (TrafficTimeBinsIndex e).
Proof.
  destruct (encodedFinalValid_rows train valid m encv e Hm H He) as [_ Hr].
  destruct (encode_row_Some m _ e Hr)
    as (_ & Hv & Hc & Hp & Ht & Ev & Ec & Ep & Et).
  rewrite Ev, Ec, Ep, Et.
  repeat split; eapply transform_one_hot; eassumption.
Qed.

Lemma encoded_vectors_one_hot_example :
  exists m encv e,
    encoder_fit example_train = Some m /\
    encodedFinalValid example_train example_train_hour21 = Some encv /\
    In e encv /\
    one_hot_at (vendorVec e) (List.length (vendorLabels m)) (vendorIndex e).
Proof.
  destruct (encoder_fit example_train) as [m|] eqn:Em;
    [|vm_compute in Em; discriminate].
  destruct (encodedFinalValid example_train example_train_hour21)
    as [[|e rest]|] eqn:E; try (vm_compute in E; discriminate).
  exists m, (e :: rest), e.
  assert (He : In e (e :: rest)) by (left; reflexivity).
  split; [reflexivity|]. split; [reflexivity|]. split; [exact He|].
  exact (proj1 (encoded_vectors_one_hot _ _ m _ e Em E He)).
Defined.

Lemma non_null_total {A : Type} (col : A -> option string) (df : list A) :
  (forall r, In r df -> col r <> None) ->
  exists values, StringIndexer.non_null (map col df) = Some values.
Proof.
  unfold StringIndexer.non_null.
  induction df as [|a df IH]; simpl; intros H.
  - exists []. reflexivity.
  - destruct (col a) as [s|] eqn:Ea.
    + destruct IH as [vs Hvs]; [intros r Hr; apply H; right; exact Hr|].
      rewrite Hvs. exists (s :: vs). reflexivity.
    + exfalso. apply (H a); [left; reflexivity | exact Ea].
Qed.

Lemma fit_total {A : Type} (col : A -> option string) (df : list A) :
  (forall r, In r df -> col r <> None) ->
  exists labels, StringIndexer.fit (map col df) = Some labels.
Proof.
  intros H. unfold StringIndexer.fit.
  destruct (non_null_total col df H) as [values Hv].
  rewrite Hv. simpl. eexists. reflexivity.
Qed.

(** X9: on the training path the encoder can never meet a label it does
    not know: when no row of the cleaned training data has a NULL
    vendor_id, rate_code, payment_type or pickup_hour, fitting the encoder
    pipeline on the binned data and applying it to that same data
    succeeds and yields one encoded row per row. *)
Theorem encodedFinal_succeeds (taxi_train : list taxi_row)
        (Hpresent : forall r, In r taxi_train -> categories_present r) :
  exists enc,
    encodedFinal (taxi_df_train_with_newFeatures taxi_train) = Some enc /\
    List.length enc = List.length taxi_train.
Proof.
  set (df := taxi_df_train_with_newFeatures taxi_train).
  assert (Hdf : forall r, In r df ->
                  vendor_id (base r) <> None /\ rate_code (base r) <> None /\
                  payment_type (base r) <> None /\ TrafficTimeBins r <> None).
  { intros r Hr. unfold df, taxi_df_train_with_newFeatures in Hr.
    apply in_map_iff in Hr. destruct Hr as [t [Ht Hin]]. subst r. simpl.
    destruct (Hpresent t Hin) as (Hv & Hc & Hp & Hh).
    repeat split; try assumption.
    intros N. apply TrafficTimeBins_null_iff in N. exact (Hh N). }
  destruct (fit_total (fun r => vendor_id (base r)) df) as [v Hv];
    [intros r Hr; apply (Hdf r Hr)|].
  destruct (fit_total (fun r => rate_code (base r)) df) as [c Hc];
    [intros r Hr; apply (Hdf r Hr)|].
  destruct (fit_total (fun r => payment_type (base r)) df) as [p Hp];
    [intros r Hr; apply (Hdf r Hr)|].
  destruct (fit_total TrafficTimeBins df) as [t Ht];
    [intros r Hr; apply (Hdf r Hr)|].
  assert (Hm : encoder_fit df = Some (mk_encoder_model v c p t)).
  { unfold encoder_fit. rewrite Hv, Hc, Hp, Ht. reflexivity. }
  destruct (encoder_transform_total df _ Hm) as [enc Henc].
  exists enc. unfold encodedFinal. rewrite Hm. simpl. split; [exact Henc|].
  unfold encoder_transform in Henc. rewrite (mapM_length _ _ _ Henc).
  unfold df, taxi_df_train_with_newFeatures. apply length_map.
Qed.

Lemma encodedFinal_succeeds_example :
  exists enc,
    encodedFinal
      (taxi_df_train_with_newFeatures
         [example_row "CMT" "CRD" 8; example_row "VTS" "CSH" 30]) = Some enc /\
    List.length enc = 2%nat.
Proof.
  apply (encodedFinal_succeeds
           [example_row "CMT" "CRD" 8; example_row "VTS" "CSH" 30]).
  intros r [E | [E | []]]; subst r; unfold categories_present; simpl;
    repeat split; discriminate.
Defined.

(** ** Splits *)

Lemma select_cons {A : Type} (b : bool) (draw : list bool) (a : A)
      (l : list A) :
  select (b :: draw) (a :: l) =
  if b then a :: select draw l else select draw l.
Proof. unfold select. simpl. destruct b; reflexivity. Qed.

Lemma select_complement {A : Type} (draw : list bool) (l : list A) :
  List.length draw = List.length l ->
  Permutation l (select draw l ++ select (map negb draw) l).
Proof.
  revert draw. induction l as [|a l IH]; intros [|b draw] Hlen;
    try discriminate.
  - apply perm_nil.
  - simpl in Hlen. injection Hlen as Hlen.
    change (map negb (b :: draw)) with (negb b :: map negb draw).
    rewrite !select_cons. destruct b; simpl.
    + apply perm_skip. apply IH. exact Hlen.
    + apply Permutation_cons_app. apply IH. exact Hlen.
Qed.

(** X10: with one draw per row, each split is a partition: the rows of
    the sample are those of trainData and testData together, and the rows
    of trainData are those of a fold's training and held-out parts
    together, each row counted once; no row is lost and none is used on
    both sides. *)
Theorem splits_are_partitions {A : Type} (d : draws) (l : list A)
        (Hsplit : List.length (split_draw d)
                  = List.length (sample (sample_draw d) l))
        (Hfold : List.length (fold_draw d) = List.length (trainData d l)) :
  Permutation (sample (sample_draw d) l) (trainData d l ++ testData d l) /\
  Permutation (trainData d l)
              (fold_training_rows d l ++ fold_heldout_rows d l) /\
  (List.length (trainData d l) + List.length (testData d l))%nat
  = List.length (sample (sample_draw d) l).
Proof.
  assert (P1 : Permutation (sample (sample_draw d) l)
                           (trainData d l ++ testData d l)).
  { unfold trainData, testData, randomSplit. simpl.
    apply select_complement. exact Hsplit. }
  split; [exact P1|]. split.
  - unfold fold_training_rows, fold_heldout_rows, fold_training,
      fold_heldout.
    eapply Permutation_trans;
      [apply (select_complement (fold_draw d)); exact Hfold|].
    apply Permutation_app_comm.
  - apply Permutation_length in P1. rewrite length_app in P1.
    symmetry. exact P1.
Qed.

Lemma splits_are_partitions_example :
  Permutation [1; 2; 3]
    (trainData (mk_draws [true; true; true] [true; false; true]
                         [false; true]) [1; 2; 3]
     ++ testData (mk_draws [true; true; true] [true; false; true]
                           [false; true]) [1; 2; 3]).
Proof.
  apply (splits_are_partitions
           (mk_draws [true; true; true] [true; false; true] [false; true])
           [1; 2; 3]); reflexivity.
Defined.

(** ** Name of the saved model *)

Lemma chars_append (a b : string) :
  list_ascii_of_string (a ++ b) =
  (list_ascii_of_string a ++ list_ascii_of_string b)%list.
Proof.
  induction a as [|c a IH]; simpl; [reflexivity|]. rewrite IH. reflexivity.
Qed.

Lemma replace_chars (old : ascii) (new s : string) (c : ascii) :
  In c (list_ascii_of_string (SaveModel.replace old new s)) ->
  (In c (list_ascii_of_string s) /\ c <> old) \/
  In c (list_ascii_of_string new).
Proof.
  induction s as [|x s IH]; simpl; [intros []|].
  destruct (Ascii.eqb_spec x old) as [E | N].
  - rewrite chars_append, in_app_iff. intros [H | H]; [right; exact H|].
    destruct (IH H) as [[H1 H2] | H1]; [left | right]; auto.
  - simpl. intros [E | H].
    + subst c. left. auto.
    + destruct (IH H) as [[H1 H2] | H1]; [left | right]; auto.
Qed.

Lemma string_length_append (a b : string) :
  String.length (a ++ b) = (String.length a + String.length b)%nat.
Proof.
  induction a as [|c a IH]; simpl; [reflexivity|]. rewrite IH. reflexivity.
Qed.

(** Removing a character shortens the text by its occurrences. *)
Lemma remove_length (old : ascii) (s : string) :
  (String.length (SaveModel.replace old "" s) + SaveModel.occurrences old s
   = String.length s)%nat.
Proof.
  induction s as [|x s IH]; simpl; [reflexivity|].
  destruct (Ascii.eqb x old); simpl; lia.
Qed.

(** Replacing a character by one character keeps the length. *)
Lemma substitute_length (old x : ascii) (s : string) :
  String.length (SaveModel.replace old (String x EmptyString) s)
  = String.length s.
Proof.
  induction s as [|y s IH]; simpl; [reflexivity|].
  destruct (Ascii.eqb y old); simpl; rewrite IH; reflexivity.
Qed.

(** X11: whatever the text of the clock, the path under which the model
    is saved contains neither a blank nor a colon; blanks are removed and
    colons replaced one for one, so the path is as long as the prefix
    "../Outputs/RandomForestRegressionModel_" (39 characters) plus the
    clock text without its blanks. *)
Theorem saved_path_has_no_blank_or_colon (now : string) :
  (forall c, In c (list_ascii_of_string (SaveModel.randForestDirfilename now))
             -> c <> " "%char /\ c <> ":"%char) /\
  (String.length (SaveModel.randForestDirfilename now)
   + SaveModel.occurrences " " now)%nat
  = (39 + String.length now)%nat.
Proof.
  split.
  - intros c Hc.
    unfold SaveModel.randForestDirfilename, SaveModel.fileName,
      SaveModel.modelDir in Hc.
    rewrite !chars_append, !in_app_iff in Hc.
    destruct Hc as [Hc | [Hc | Hc]].
    + simpl in Hc.
      repeat (destruct Hc as [Hc | Hc];
              [subst c; split; discriminate|]).
      contradiction.
    + simpl in Hc.
      repeat (destruct Hc as [Hc | Hc];
              [subst c; split; discriminate|]).
      contradiction.
    + unfold SaveModel.datestamp in Hc.
      apply replace_chars in Hc. destruct Hc as [[Hc Hcolon] | Hc].
      * apply replace_chars in Hc. destruct Hc as [[_ Hblank] | []].
        split; assumption.
      * simpl in Hc. destruct Hc as [Hc | []]. subst c.
        split; discriminate.
  - unfold SaveModel.randForestDirfilename, SaveModel.fileName,
      SaveModel.modelDir, SaveModel.datestamp.
    rewrite !string_length_append, substitute_length.
    pose proof (remove_length " "%char now) as R. simpl. lia.
Qed.

Lemma saved_path_underscore :
  In "_"%char
     (list_ascii_of_string
        (SaveModel.randForestDirfilename "2017-03-22 10:15:30.123456")) /\
  "_"%char <> " "%char /\ "_"%char <> ":"%char.
Proof.
  assert (H : In "_"%char
                 (list_ascii_of_string
                    (SaveModel.randForestDirfilename
                       "2017-03-22 10:15:30.123456"))).
  { vm_compute. tauto. }
  split; [exact H|].
  exact (proj1 (saved_path_has_no_blank_or_colon
                  "2017-03-22 10:15:30.123456") "_"%char H).
Defined.

(** ** Vocabulary of the derived column *)

Lemma non_null_values (column : list (option string))
      (values : list string) :
  StringIndexer.non_null column = Some values -> map Some values = column.
Proof.
  unfold StringIndexer.non_null.
  revert values. induction column as [|x column IH]; simpl; intros values H.
  - inversion H. reflexivity.
  - destruct x as [s|]; simpl in H; [|discriminate].
    destruct (mapM (fun v => v) column) as [vs|] eqn:E;
      simpl in H; [|discriminate].
    inversion H; subst values. simpl. rewrite (IH vs eq_refl). reflexivity.
Qed.

(** X12: the traffic-time vocabulary never has more than the four labels
    of the CASE expression: whatever hours the training data hold, the
    labels fitted for TrafficTimeBins are distinct members of Night,
    AMRush, Afternoon, PMRush, so every TrafficTimeBinsIndex is below 4. *)
Theorem TrafficTimeBins_vocabulary_bounded
        (taxi_train : list taxi_row) (m : encoder_model)
        (Hm : encoder_fit (taxi_df_train_with_newFeatures taxi_train)
              = Some m) :
  NoDup (TrafficTimeBinsLabels m) /\
  incl (TrafficTimeBinsLabels m) TimeBins.bin_labels /\
  (List.length (TrafficTimeBinsLabels m) <= 4)%nat.
Proof.
  unfold encoder_fit in Hm.
  destruct (StringIndexer.fit _) as [v|]; simpl in Hm; [|discriminate].
  destruct (StringIndexer.fit _) as [c|]; simpl in Hm; [|discriminate].
  destruct (StringIndexer.fit _) as [p|]; simpl in Hm; [|discriminate].
  destruct (StringIndexer.fit
              (map TrafficTimeBins
                   (taxi_df_train_with_newFeatures taxi_train)))
    as [t|] eqn:Et; simpl in Hm; [|discriminate].
  inversion Hm; subst m. simpl.
  unfold StringIndexer.fit in Et.
  destruct (StringIndexer.non_null _) as [values|] eqn:Ev;
    simpl in Et; [|discriminate].
  inversion Et; subst t.
  assert (ND := fit_labels_NoDup values).
  assert (I : incl (StringIndexer.fit_labels values) TimeBins.bin_labels).
  { intros s Hs. apply (proj1 (fit_labels_In values s)) in Hs.
    apply non_null_values in Ev.
    assert (Hin : In (Some s)
                     (map TrafficTimeBins
                          (taxi_df_train_with_newFeatures taxi_train))).
    { rewrite <- Ev. apply in_map. exact Hs. }
    apply in_map_iff in Hin. destruct Hin as [r [Hr Hrin]].
    unfold taxi_df_train_with_newFeatures in Hrin.
    apply in_map_iff in Hrin. destruct Hrin as [raw [Hraw _]].
    subst r. simpl in Hr. apply (TrafficTimeBins_label _ _ Hr). }
  split; [exact ND|]. split; [exact I|].
  apply (NoDup_incl_length ND I).
Qed.

Lemma TrafficTimeBins_vocabulary_bounded_example :
  exists m,
    encoder_fit
      (taxi_df_train_with_newFeatures
         [example_row "CMT" "CRD" 8; example_row "VTS" "CSH" 30]) = Some m /\
    (List.length (TrafficTimeBinsLabels m) <= 4)%nat.
Proof.
  destruct (encoder_fit
              (taxi_df_train_with_newFeatures
                 [example_row "CMT" "CRD" 8; example_row "VTS" "CSH" 30]))
    as [m|] eqn:Em; [|vm_compute in Em; discriminate].
  exists m. split; [reflexivity|].
  exact (proj2 (proj2 (TrafficTimeBins_vocabulary_bounded _ m Em))).
Defined.
